(** * Webberizer: article extraction and LLM analysis (src/main.py)

    A shallow embedding of [WebScraper.extract_article],
    [GroqAnalyzer.analyze_text] and the Flask view [analyze], followed by
    the properties of the specification that concern them.

    Conventions of the embedding.
    - A Python [str] is a [string] whose characters are code points below
      256; whitespace is what [str.isspace] and the regex class [\s]
      accept in that range.
    - A Python function that may raise returns in the monad [M]: a result
      that is either a value or a raised exception, threaded with the
      records written through [logging].  Only classes deriving from
      [Exception] are modelled (interpreter-exit signals are not).
    - The network, the HTML parser and the JSON decoder are not part of the
      repository; they are the fields of a [World]. *)

From stdpp Require Import gmap strings list fin_maps pretty.
From Stdlib Require Import ZArith Ascii String.

#[local] Set Warnings "-register-all".
#[local] Open Scope string_scope.

(** ** Python strings *)

Module Str.

(** [str.isspace] on one character (same set as the regex class [\s]). *)
Definition isspace (c : ascii) : bool :=
  let n := N_of_ascii c in
  ((9 <=? n) && (n <=? 13) || (28 <=? n) && (n <=? 32)
   || (n =? 133) || (n =? 160))%N.

Fixpoint lstrip (s : string) : string :=
  match s with
  | "" => ""
  | String c s' => if isspace c then lstrip s' else s
  end.

Fixpoint rstrip (s : string) : string :=
  match s with
  | "" => ""
  | String c s' =>
      match rstrip s' with
      | "" => if isspace c then "" else String c ""
      | r => String c r
      end
  end.

(** [s.strip()] *)
Definition strip (s : string) : string := rstrip (lstrip s).

(** [sep.join(items)] *)
Fixpoint join (sep : string) (items : list string) : string :=
  match items with
  | [] => ""
  | [x] => x
  | x :: rest => x +:+ sep +:+ join sep rest
  end.

(** Scanner behind [re.sub(r'\s+', ' ', s)]: [in_run] tells that the
    previous character belonged to the whitespace run being replaced. *)
Fixpoint sub_ws (in_run : bool) (s : string) : string :=
  match s with
  | "" => ""
  | String c s' =>
      if isspace c
      then (if in_run then sub_ws true s' else String " " (sub_ws true s'))
      else String c (sub_ws false s')
  end.

(** [re.sub(r'\s+', ' ', s)] *)
Definition re_sub_ws (s : string) : string := sub_ws false s.

(** [s.startswith(prefixes)] with a tuple of prefixes *)
Definition startswith (s : string) (prefixes : list string) : bool :=
  existsb (fun p => String.prefix p s) prefixes.

(** [needle in hay] on two strings *)
Fixpoint contains (needle hay : string) : bool :=
  String.prefix needle hay
  || match hay with
     | "" => false
     | String _ hay' => contains needle hay'
     end.

Definition nl : string := String (ascii_of_N 10) "".
Definition dquote : string := String (ascii_of_N 34) "".

(** String of whitespace only (the empty string included). *)
Fixpoint all_space (s : string) : bool :=
  match s with
  | "" => true
  | String c s' => isspace c && all_space s'
  end.

End Str.

(** ** Exceptions, results and the logging monad *)

Inductive ExcClass : Type :=
| Exception
| ValueError
| TypeError
| KeyError
| IndexError
| OSError
| JSONDecodeError            (* json.JSONDecodeError *)
| RequestException           (* requests.RequestException *)
| HTTPError
| ConnectionError
| Timeout
| InvalidJSONError
| RequestsJSONDecodeError    (* requests.exceptions.JSONDecodeError *)
| MissingSchema
| OtherException (name : string).

#[global] Instance ExcClass_eq_dec : EqDecision ExcClass.
Proof. solve_decision. Defined.

(** The class itself followed by its ancestors (below [object]). *)
Definition mro (c : ExcClass) : list ExcClass :=
  match c with
  | Exception => [Exception]
  | ValueError => [ValueError; Exception]
  | TypeError => [TypeError; Exception]
  | KeyError => [KeyError; Exception]
  | IndexError => [IndexError; Exception]
  | OSError => [OSError; Exception]
  | JSONDecodeError => [JSONDecodeError; ValueError; Exception]
  | RequestException => [RequestException; OSError; Exception]
  | HTTPError => [HTTPError; RequestException; OSError; Exception]
  | ConnectionError => [ConnectionError; RequestException; OSError; Exception]
  | Timeout => [Timeout; RequestException; OSError; Exception]
  | InvalidJSONError => [InvalidJSONError; RequestException; OSError; Exception]
  | RequestsJSONDecodeError =>
      [RequestsJSONDecodeError; InvalidJSONError; RequestException; OSError;
       JSONDecodeError; ValueError; Exception]
  | MissingSchema =>
      [MissingSchema; RequestException; OSError; ValueError; Exception]
  | OtherException name => [OtherException name; Exception]
  end.

Definition issubclass (c base : ExcClass) : bool := bool_decide (base ∈ mro c).

(** A raised exception: its class and what [str(e)] gives. *)
Record exception : Type := mkExc { exc_class : ExcClass; str : string }.

Definition isinstance (e : exception) (base : ExcClass) : bool :=
  issubclass (exc_class e) base.

Inductive Result (A : Type) : Type :=
| Return (a : A)
| Raise (e : exception).
Arguments Return {A} a.
Arguments Raise {A} e.

Inductive LogLevel : Type := INFO | ERROR.
Record LogRecord : Type := mkLog { levelname : LogLevel; message : string }.

Definition M (A : Type) : Type := list LogRecord → Result A * list LogRecord.

#[global] Instance M_ret : MRet M := λ A a log, (Return a, log).
#[global] Instance M_bind : MBind M := λ A B f m log,
  match m log with
  | (Return a, log') => f a log'
  | (Raise e, log') => (Raise e, log')
  end.

Definition raise {A} (c : ExcClass) (msg : string) : M A :=
  λ log, (Raise (mkExc c msg), log).

(** Outcome of a library call, run inside [M]. *)
Definition call {A} (r : Result A) : M A := λ log, (r, log).

(** [logging.error(msg)] *)
Definition logging_error (msg : string) : M unit :=
  λ log, (Return (), (log ++ [mkLog ERROR msg])%list).

(** The first [except] clause whose class the exception is an instance of. *)
Fixpoint find_handler {A} (e : exception)
    (handlers : list (ExcClass * (exception → M A))) : option (exception → M A) :=
  match handlers with
  | [] => None
  | (c, h) :: rest => if isinstance e c then Some h else find_handler e rest
  end.

(** [try: body  except C1 as e: h1  except C2 as e: h2 ...] *)
Definition try_except {A} (body : M A)
    (handlers : list (ExcClass * (exception → M A))) : M A :=
  λ log,
    match body log with
    | (Return a, log') => (Return a, log')
    | (Raise e, log') =>
        match find_handler e handlers with
        | Some h => h e log'
        | None => (Raise e, log')
        end
    end.

(** What a call leaves once the log it wrote is set aside. *)
Definition outcome {A} (m : M A) (log : list LogRecord) : Result A := (m log).1.

(** ** JSON values as Python objects *)

(** A Python [float]: a finite value [m * 2^e], an infinity or a NaN. *)
Inductive pyfloat : Type :=
| Finite (m e : Z)
| Infinity (negative : bool)
| NaN.

(** What [json.loads] and [Response.json] build: [None], [bool], [int],
    [float], [str], [list] and [dict] with string keys. *)
Inductive json : Type :=
| JNull
| JBool (b : bool)
| JInt (z : Z)
| JFloat (f : pyfloat)
| JStr (s : string)
| JArr (items : list json)
| JObj (fields : gmap string json).

Module Py.

Definition type_name (v : json) : string :=
  match v with
  | JNull => "NoneType"
  | JBool _ => "bool"
  | JInt _ => "int"
  | JFloat _ => "float"
  | JStr _ => "str"
  | JArr _ => "list"
  | JObj _ => "dict"
  end.

(** Truth value of an object, as [not v] and [if v] test it. *)
Definition truthy (v : json) : bool :=
  match v with
  | JNull => false
  | JBool b => b
  | JInt z => negb (z =? 0)%Z
  | JFloat (Finite m _) => negb (m =? 0)%Z
  | JFloat _ => true
  | JStr s => negb (String.eqb s "")
  | JArr items => negb (bool_decide (items = [] :> list json))
  | JObj fields => negb (bool_decide (size fields = 0))
  end.

Definition is_str (key : string) (v : json) : bool :=
  match v with
  | JStr s => String.eqb s key
  | _ => false
  end.

(** [key in v] for a string [key]: key membership in a dict, element
    membership in a list, substring test in a string. *)
Definition contains (key : string) (v : json) : Result bool :=
  match v with
  | JObj fields => Return (bool_decide (is_Some (fields !! key)))
  | JArr items => Return (existsb (is_str key) items)
  | JStr s => Return (Str.contains key s)
  | _ => Raise (mkExc TypeError
           ("argument of type '" +:+ type_name v +:+ "' is not iterable"))
  end.

(** [v[key]] for a string [key] *)
Definition getitem (v : json) (key : string) : Result json :=
  match v with
  | JObj fields =>
      match fields !! key with
      | Some x => Return x
      | None => Raise (mkExc KeyError ("'" +:+ key +:+ "'"))
      end
  | JArr _ =>
      Raise (mkExc TypeError "list indices must be integers or slices, not str")
  | JStr _ =>
      Raise (mkExc TypeError "string indices must be integers, not 'str'")
  | _ => Raise (mkExc TypeError
           ("'" +:+ type_name v +:+ "' object is not subscriptable"))
  end.

(** [v[i]] for a non-negative integer [i] *)
Definition getitem_int (v : json) (i : nat) : Result json :=
  match v with
  | JArr items =>
      match items !! i with
      | Some x => Return x
      | None => Raise (mkExc IndexError "list index out of range")
      end
  | JStr s =>
      match String.get i s with
      | Some c => Return (JStr (String c ""))
      | None => Raise (mkExc IndexError "string index out of range")
      end
  | JObj _ => Raise (mkExc KeyError (pretty (Z.of_nat i)))
  | _ => Raise (mkExc TypeError
           ("'" +:+ type_name v +:+ "' object is not subscriptable"))
  end.

(** [all(key in v for key in keys)]: stops at the first key that is
    absent, and at the first test that raises. *)
Fixpoint all_in (keys : list string) (v : json) : Result bool :=
  match keys with
  | [] => Return true
  | key :: rest =>
      match contains key v with
      | Return true => all_in rest v
      | Return false => Return false
      | Raise e => Raise e
      end
  end.

(** [str(x)] for an optional string ([None] prints as its name). *)
Definition str_opt (x : option string) : string :=
  match x with
  | Some s => s
  | None => "None"
  end.

End Py.

(** ** HTTP responses (requests) *)

Record Response : Type := mkResponse {
  status_code : Z;
  reason : string;
  url : string;
  text : string
}.

(** The message [raise_for_status] composes: empty unless the status is
    a 4xx or a 5xx. *)
Definition http_error_msg (r : Response) : string :=
  if ((400 <=? status_code r) && (status_code r <? 500))%Z then
    pretty (status_code r) +:+ " Client Error: " +:+ reason r
      +:+ " for url: " +:+ url r
  else if ((500 <=? status_code r) && (status_code r <? 600))%Z then
    pretty (status_code r) +:+ " Server Error: " +:+ reason r
      +:+ " for url: " +:+ url r
  else "".

(** [Response.raise_for_status]: an [HTTPError] for the 4xx and 5xx
    status codes, nothing for the others. *)
Definition raise_for_status (r : Response) : Result unit :=
  if negb (String.eqb (http_error_msg r) "")
  then Raise (mkExc HTTPError (http_error_msg r))
  else Return ().

(** ** The parsed page (BeautifulSoup) *)

Inductive PageElement : Type :=
| NavigableString (s : string)
| Comment (s : string)
| Tag (name : string) (attrs : list (string * string))
      (contents : list PageElement).

(** The two forms of CSS selector the scraper uses: [name] and
    [name[attr*=value]]. *)
Inductive Selector : Type :=
| TypeSelector (name : string)
| AttrContains (name attr value : string).

Module Bs4.

Definition is_tag (name : string) (e : PageElement) : bool :=
  match e with
  | Tag n _ _ => String.eqb n name
  | _ => false
  end.

(** [tag.get(attr)]: the value of an attribute; a multi-valued attribute
    such as [class] is held joined by single spaces, the way the selector
    engine reads it. *)
Fixpoint get_attr (attr : string) (attrs : list (string * string))
    : option string :=
  match attrs with
  | [] => None
  | (k, v) :: rest => if String.eqb k attr then Some v else get_attr attr rest
  end.

(** [tag.descendants]: every element below [e], in document order. *)
Fixpoint descendants (e : PageElement) : list PageElement :=
  match e with
  | Tag _ _ contents => flat_map (λ c, c :: descendants c) contents
  | _ => []
  end.

(** [tag.find(name)] *)
Definition find (e : PageElement) (name : string) : option PageElement :=
  List.find (is_tag name) (descendants e).

(** [tag.find_all(name)] *)
Definition find_all (e : PageElement) (name : string) : list PageElement :=
  List.filter (is_tag name) (descendants e).

Definition matches (sel : Selector) (e : PageElement) : bool :=
  match sel, e with
  | TypeSelector name, Tag n _ _ => String.eqb n name
  | AttrContains name attr value, Tag n attrs _ =>
      String.eqb n name
      && match get_attr attr attrs with
         | Some v => negb (String.eqb value "") && Str.contains value v
         | None => false
         end
  | _, _ => false
  end.

(** [soup.select_one(selector)]: first match in document order. *)
Definition select_one (e : PageElement) (sel : Selector)
    : option PageElement :=
  List.find (matches sel) (descendants e).

(** [tag.get_text()]: the strings below [e], concatenated. *)
Fixpoint get_text (e : PageElement) : string :=
  match e with
  | NavigableString s => s
  | Comment _ => ""
  | Tag _ _ contents => String.concat "" (map get_text contents)
  end.

(** Effect on [e] of
    [for element in e.find_all(name): element.decompose()]:
    every subtree below [e] rooted at a [name] tag is gone. *)
Fixpoint decompose_all (name : string) (e : PageElement) : PageElement :=
  match e with
  | Tag n attrs contents =>
      Tag n attrs
        (flat_map (λ c, if is_tag name c then [] else [decompose_all name c])
                  contents)
  | _ => e
  end.

End Bs4.

(** ** What the program reaches outside itself *)

Record World : Type := mkWorld {
  (** [session.get(url, headers=..., timeout=...)] *)
  session_get : string → list (string * string) → Z → Result Response;
  (** [requests.post(url, headers=..., json=...)] *)
  requests_post : string → list (string * string) → json → Result Response;
  (** [response.json()] *)
  response_json : Response → Result json;
  (** [BeautifulSoup(markup, features)] *)
  BeautifulSoup : string → string → Result PageElement;
  (** [json.loads(s)] on a string *)
  json_loads : string → Result json
}.

(** [json.loads(v)] on an object taken out of a decoded response. *)
Definition json_loads_obj (w : World) (v : json) : Result json :=
  match v with
  | JStr s => json_loads w s
  | _ => Raise (mkExc TypeError
           ("the JSON object must be str, bytes or bytearray, not "
            +:+ Py.type_name v))
  end.

(** ** class WebScraper *)

Module WebScraper.

Definition headers : list (string * string) :=
  [("User-Agent",
    "Mozilla/5.0 (Windows NT 10.0; Win64; x64) AppleWebKit/537.36")].

(** 'article', 'div[class*=article]', 'div[class*=content]',
    'div[class*=post]', 'main' *)
Definition selectors : list Selector :=
  [TypeSelector "article";
   AttrContains "div" "class" "article";
   AttrContains "div" "class" "content";
   AttrContains "div" "class" "post";
   TypeSelector "main"].

Definition unwanted_tags : list string :=
  ["script"; "style"; "nav"; "header"; "footer";
   "aside"; "iframe"; "form"; "button"].

(** The loop [for selector in ...: article = soup.select_one(selector);
    if article: break], started with [article] as it stands. *)
Fixpoint select_article (soup : PageElement) (sels : list Selector)
    (article : option PageElement) : option PageElement :=
  match sels with
  | [] => article
  | selector :: rest =>
      let article := Bs4.select_one soup selector in
      match article with
      | Some _ => article
      | None => select_article soup rest article
      end
  end.

(** The loops removing the unwanted elements of the container. *)
Definition remove_unwanted (article : PageElement) : PageElement :=
  fold_left (λ a tag, Bs4.decompose_all tag a) unwanted_tags article.

(** The two assignments to [text]. *)
Definition article_text (article : PageElement) : string :=
  let text :=
    Str.join " " (map (λ p, Str.strip (Bs4.get_text p))
                      (Bs4.find_all article "p")) in
  Str.strip (Str.re_sub_ws text).

(** The body of the [try] block. *)
Definition extract_article_try (w : World) (url : string)
    : M (string * string) :=
  response ← call (session_get w url headers 30);
  _ ← call (raise_for_status response);
  soup ← call (BeautifulSoup w (text response) "html.parser");
  let title := "" in
  let title_tag := Bs4.find soup "h1" in
  let title :=
    match title_tag with
    | Some t => Str.strip (Bs4.get_text t)
    | None => title
    end in
  let article := select_article soup selectors None in
  match article with
  | None => raise ValueError "Could not find article content"
  | Some article =>
      let article := remove_unwanted article in
      mret (title, article_text article)
  end.

Definition extract_article (w : World) (url : string)
    : M (string * string) :=
  try_except (extract_article_try w url)
    [(Exception, λ e,
        _ ← logging_error ("Error extracting from " +:+ url +:+ ": " +:+ str e);
        mret ("", ""))].

End WebScraper.

(** ** class GroqAnalyzer *)

Module GroqAnalyzer.

Definition api_url : string :=
  "https://api.groq.com/openai/v1/chat/completions".

Definition headers (api_key : option string) : list (string * string) :=
  [("Authorization", "Bearer " +:+ Py.str_opt api_key);
   ("Content-Type", "application/json")].

(** The lines of the prompt that follow the article text. *)
Definition prompt_instructions : list string :=
  ["Provide a comprehensive analysis including:";
   "1. A concise summary (2-3 sentences)";
   "2. Key points (3-5 points)";
   "3. Sentiment analysis (positive/negative/neutral with explanation)";
   "4. Main topics discussed";
   "5. Writing style analysis";
   "6. Target audience assessment";
   "";
   "Format the response as JSON with these exact keys:";
   "- summary";
   "- key_points (array)";
   "- topics (array)";
   "- writing_style"].

Definition prompt (title text : string) : string :=
  "Analyze the following article titled " +:+ Str.dquote +:+ title
    +:+ Str.dquote +:+ ":" +:+ Str.nl
    +:+ Str.nl
    +:+ text +:+ Str.nl
    +:+ Str.nl
    +:+ Str.join Str.nl prompt_instructions.

Definition request_json (prompt : string) : json :=
  JObj {[ "model" := JStr "llama-3.3-70b-versatile";
          "messages" := JArr [
            JObj {[ "role" := JStr "system";
                    "content" := JStr "You are an expert text analyzer. Provide detailed, accurate analysis in JSON format." ]};
            JObj {[ "role" := JStr "user"; "content" := JStr prompt ]} ];
          "temperature" := JFloat (Finite 1 (-1));
          "max_tokens" := JInt 2048;
          "response_format" := JObj {[ "type" := JStr "json_object" ]} ]}.

Definition expected_keys : list string :=
  ["summary"; "key_points"; "sentiment"; "topics";
   "writing_style"; "target_audience"].

(** ['choices' not in response_data or not response_data['choices']] *)
Definition choices_missing (response_data : json) : Result bool :=
  match Py.contains "choices" response_data with
  | Raise e => Raise e
  | Return false => Return true
  | Return true =>
      match Py.getitem response_data "choices" with
      | Raise e => Raise e
      | Return choices => Return (negb (Py.truthy choices))
      end
  end.

Definition connect_failure (details : string) : json :=
  JObj {[ "error" := JStr "Failed to connect to GROQ API";
          "details" := JStr details ]}.

Definition analyze_failure (details : string) : json :=
  JObj {[ "error" := JStr "Failed to analyze text";
          "details" := JStr details ]}.

(** The inner [try] block with its [except json.JSONDecodeError]. *)
Definition parse_analysis (w : World) (analysis_text : json) : M json :=
  try_except
    (analysis ← call (json_loads_obj w analysis_text);
     call (Py.all_in expected_keys analysis) ≫= λ present : bool,
     if negb present
     then raise ValueError "Missing required keys in analysis response"
     else mret analysis)
    [(JSONDecodeError, λ e,
        _ ← logging_error ("Failed to parse GROQ response as JSON: " +:+ str e);
        raise ValueError ("Invalid JSON response from GROQ: " +:+ str e))].

(** The body of the outer [try] block. *)
Definition analyze_text_try (w : World) (api_key : option string)
    (title text : string) : M json :=
  let prompt := prompt title text in
  response ← call (requests_post w api_url (headers api_key)
                                 (request_json prompt));
  _ ← call (raise_for_status response);
  response_data ← call (response_json w response);
  call (choices_missing response_data) ≫= λ missing : bool,
  if missing
  then raise ValueError "Invalid response format from GROQ API"
  else
    choices ← call (Py.getitem response_data "choices");
    choice ← call (Py.getitem_int choices 0);
    message ← call (Py.getitem choice "message");
    analysis_text ← call (Py.getitem message "content");
    parse_analysis w analysis_text.

Definition analyze_text (w : World) (api_key : option string)
    (title text : string) : M json :=
  try_except (analyze_text_try w api_key title text)
    [(RequestException, λ e,
        _ ← logging_error ("GROQ API request failed: " +:+ str e);
        mret (connect_failure (str e)));
     (Exception, λ e,
        _ ← logging_error ("Error in GROQ analysis: " +:+ str e);
        mret (analyze_failure (str e)))].

End GroqAnalyzer.

(** ** The Flask view for POST /analyze *)

(** [request.form.get(key)]: the first value posted under [key]. *)
Fixpoint form_get (form : list (string * string)) (key : string)
    : option string :=
  match form with
  | [] => None
  | (k, v) :: rest => if String.eqb k key then Some v else form_get rest key
  end.

(** [jsonify(v)]: the response body carrying [v]. *)
Definition jsonify (v : json) : json := v.

(** The body of the [try] block; the result is the pair of the response
    body and the status code (200 where the view gives none). *)
Definition analyze_try (w : World) (GROQ_API_KEY : option string)
    (form : list (string * string)) : M (json * Z) :=
  match form_get form "url" with
  | None | Some "" =>
      mret (jsonify (JObj {[ "error" := JStr "No URL provided" ]}), 400%Z)
  | Some url =>
      if negb (Str.startswith url ["http://"; "https://"])
      then mret (jsonify (JObj {[ "error" := JStr "Invalid URL format. URL must start with http:// or https://" ]}), 400%Z)
      else
        extracted ← WebScraper.extract_article w url;
        let '(title, text) := extracted in
        if String.eqb text ""
        then mret (jsonify (JObj {[ "error" := JStr "Failed to extract article content" ]}), 400%Z)
        else
          analysis ← GroqAnalyzer.analyze_text w GROQ_API_KEY title text;
          call (Py.contains "error" analysis) ≫= λ has_error : bool,
          if has_error
          then mret (jsonify analysis, 500%Z)
          else mret (jsonify analysis, 200%Z)
  end.

Definition analyze (w : World) (GROQ_API_KEY : option string)
    (form : list (string * string)) : M (json * Z) :=
  try_except (analyze_try w GROQ_API_KEY form)
    [(Exception, λ e,
        _ ← logging_error ("Error in analysis endpoint: " +:+ str e);
        mret (jsonify (JObj {[ "error" := JStr (str e) ]}), 500%Z))].

(** ** The text assembly in the words of the specification *)

(** Specification wording: the texts of the paragraph elements of the
    container, concatenated with single spaces, every run of whitespace
    collapsed to a single space, leading and trailing whitespace trimmed. *)
Definition assembled_text (article : PageElement) : string :=
  Str.strip
    (Str.re_sub_ws
       (Str.join " " (map Bs4.get_text (Bs4.find_all article "p")))).

(** ** A one-pass normal form for whitespace

    [squeeze] writes the words of a string separated by single spaces; its
    state tells what precedes the next character: nothing but whitespace,
    a word character, or whitespace after a word. *)

Inductive ws_state : Type := AtStart | InWord | AfterSpace.

Definition on_space (st : ws_state) : ws_state :=
  match st with
  | AtStart => AtStart
  | _ => AfterSpace
  end.

Fixpoint squeeze (st : ws_state) (s : string) : string :=
  match s with
  | "" => ""
  | String c s' =>
      if Str.isspace c then squeeze (on_space st) s'
      else match st with
           | AfterSpace => String " " (String c (squeeze InWord s'))
           | _ => String c (squeeze InWord s')
           end
  end.

Fixpoint state_after (st : ws_state) (s : string) : ws_state :=
  match s with
  | "" => st
  | String c s' =>
      state_after (if Str.isspace c then on_space st else InWord) s'
  end.

(** ** Notions the properties are stated with *)

(** A selector matches at least one element of the page. *)
Definition selects (soup : PageElement) (sel : Selector) : bool :=
  existsb (Bs4.matches sel) (Bs4.descendants soup).

(** A paragraph whose text is empty or whitespace only. *)
Definition blank (p : PageElement) : Prop :=
  Str.all_space (Bs4.get_text p) = true.

(** The cleaning loops for a list of tag names. *)
Definition decompose_tags (tags : list string) (e : PageElement)
    : PageElement :=
  fold_left (λ a tag, Bs4.decompose_all tag a) tags e.

(** The remote model answers the request made for [title] and [text]
    with [analysis_text]: the request goes through, its status is no
    error, and the decoded response holds [analysis_text] at
    [['choices'][0]['message']['content']]. *)
Definition replies (w : World) (api_key : option string)
    (title text : string) (analysis_text : json) : Prop :=
  ∃ response response_data choices choice message,
    requests_post w GroqAnalyzer.api_url (GroqAnalyzer.headers api_key)
      (GroqAnalyzer.request_json (GroqAnalyzer.prompt title text))
      = Return response
    ∧ raise_for_status response = Return ()
    ∧ response_json w response = Return response_data
    ∧ Py.contains "choices" response_data = Return true
    ∧ Py.getitem response_data "choices" = Return choices
    ∧ Py.truthy choices = true
    ∧ Py.getitem_int choices 0 = Return choice
    ∧ Py.getitem choice "message" = Return message
    ∧ Py.getitem message "content" = Return analysis_text.

(** The request made to the model for [title] and [text] fails with
    [details]: the call raises a requests exception of that message, or the
    response carries a 4xx or 5xx status and [details] is the message made
    for it. *)
Definition post_fails (w : World) (api_key : option string)
    (title text details : string) : Prop :=
  let posted :=
    requests_post w GroqAnalyzer.api_url (GroqAnalyzer.headers api_key)
      (GroqAnalyzer.request_json (GroqAnalyzer.prompt title text)) in
  (∃ e, posted = Raise e
        ∧ isinstance e RequestException = true
        ∧ details = str e)
  ∨ (∃ r, posted = Return r
          ∧ (400 ≤ status_code r < 600)%Z
          ∧ details = http_error_msg r).

(** A request that passes the checks the view makes on the posted URL. *)
Definition posts_url (form : list (string * string)) (url : string) : Prop :=
  form_get form "url" = Some url
  ∧ url ≠ ""
  ∧ Str.startswith url ["http://"; "https://"] = true.

(** The page fetched for [url] parses to [soup]. *)
Definition fetches (w : World) (url : string) (soup : PageElement) : Prop :=
  ∃ response,
    session_get w url WebScraper.headers 30 = Return response
    ∧ raise_for_status response = Return ()
    ∧ BeautifulSoup w (text response) "html.parser" = Return soup.

(** The object holds every key of [keys]. *)
Definition has_keys (keys : list string) (fields : gmap string json) : bool :=
  forallb (λ key, bool_decide (is_Some (fields !! key))) keys.

(** Where the outer [try] block stands once the calls before the decoding
    are made: the payload to decode, or the exception raised on the way. *)
Definition payload_of (w : World) (api_key : option string)
    (title text : string) : Result json :=
  match requests_post w GroqAnalyzer.api_url (GroqAnalyzer.headers api_key)
          (GroqAnalyzer.request_json (GroqAnalyzer.prompt title text)) with
  | Raise e => Raise e
  | Return response =>
      match raise_for_status response with
      | Raise e => Raise e
      | Return _ =>
          match response_json w response with
          | Raise e => Raise e
          | Return response_data =>
              match GroqAnalyzer.choices_missing response_data with
              | Raise e => Raise e
              | Return true =>
                  Raise (mkExc ValueError
                           "Invalid response format from GROQ API")
              | Return false =>
                  match Py.getitem response_data "choices" with
                  | Raise e => Raise e
                  | Return choices =>
                      match Py.getitem_int choices 0 with
                      | Raise e => Raise e
                      | Return choice =>
                          match Py.getitem choice "message" with
                          | Raise e => Raise e
                          | Return message => Py.getitem message "content"
                          end
                      end
                  end
              end
          end
      end
  end.

(** ** Sample pages, replies and worlds *)

Module Samples.

Definition ok_response (body : string) : Response :=
  mkResponse 200 "OK" "https://example.org/post" body.

(** A world whose every call has a fixed outcome. *)
Definition constant_world (got posted : Result Response)
    (data : Result json) (soup : Result PageElement) (loaded : Result json)
    : World :=
  mkWorld (λ _ _ _, got) (λ _ _ _, posted) (λ _, data) (λ _ _, soup)
          (λ _, loaded).

(** The paragraph text of the specification: a, two line feeds, two
    spaces, b, three spaces, c. *)
Definition spaced_text : string :=
  "a" +:+ Str.nl +:+ Str.nl +:+ "  b   c".

Definition spaced_article : PageElement :=
  Tag "article" [] [Tag "p" [] [NavigableString spaced_text]].

(** A page whose container is found by the fourth selector. *)
Definition post_page : PageElement :=
  Tag "[document]" []
    [Tag "html" []
       [Tag "body" []
          [Tag "h1" [] [NavigableString " Title "];
           Tag "div" [("class", "post-body")]
             [Tag "nav" [] [Tag "p" [] [NavigableString "menu"]];
              Tag "p" [] [NavigableString spaced_text];
              Tag "p" [] [NavigableString " d "]];
           Tag "main" [] [Tag "p" [] [NavigableString "other"]]]]].

Definition post_container : PageElement :=
  Tag "div" [("class", "post-body")]
    [Tag "nav" [] [Tag "p" [] [NavigableString "menu"]];
     Tag "p" [] [NavigableString spaced_text];
     Tag "p" [] [NavigableString " d "]].

(** A page without any of the containers. *)
Definition bare_page : PageElement :=
  Tag "[document]" []
    [Tag "html" []
       [Tag "body" []
          [Tag "h1" [] [NavigableString "Title"];
           Tag "p" [] [NavigableString "text"]]]].

(** A page whose container holds blank paragraphs only. *)
Definition blank_page : PageElement :=
  Tag "[document]" []
    [Tag "html" []
       [Tag "body" []
          [Tag "h1" [] [NavigableString "Title"];
           Tag "article" []
             [Tag "p" [] [NavigableString "  "];
              Tag "p" [] [];
              NavigableString "text outside paragraphs"]]]].

Definition blank_container : PageElement :=
  Tag "article" []
    [Tag "p" [] [NavigableString "  "];
     Tag "p" [] [];
     NavigableString "text outside paragraphs"].

(** A chat completion whose first choice carries [content]. *)
Definition completion (content : string) : json :=
  JObj {[ "choices" :=
            JArr [JObj {[ "message" :=
                            JObj {[ "role" := JStr "assistant";
                                    "content" := JStr content ]} ]}] ]}.

(** An analysis with the six expected keys. *)
Definition full_analysis : gmap string json :=
  {[ "summary" := JStr "s";
     "key_points" := JArr [JStr "k"];
     "sentiment" := JStr "neutral";
     "topics" := JArr [JStr "t"];
     "writing_style" := JStr "plain";
     "target_audience" := JStr "everyone" ]}.

(** An analysis with the four keys the prompt lists. *)
Definition prompted_analysis : gmap string json :=
  {[ "summary" := JStr "s";
     "key_points" := JArr [JStr "k"];
     "topics" := JArr [JStr "t"];
     "writing_style" := JStr "plain" ]}.

(** The full analysis with one more key, named error. *)
Definition flagged_analysis : gmap string json :=
  <[ "error" := JStr "none found" ]> full_analysis.

Definition form : list (string * string) :=
  [("url", "https://example.org/post")].

(** The page is [soup]; the model answers and its payload decodes as
    [loaded]. *)
Definition answering_world (soup : PageElement) (loaded : Result json)
    : World :=
  constant_world (Return (ok_response "<html>")) (Return (ok_response "{}"))
    (Return (completion "{}")) (Return soup) loaded.

(** The request to the model fails with [posted]. *)
Definition failing_world (posted : Result Response) : World :=
  constant_world (Return (ok_response "<html>")) posted
    (Return (completion "{}")) (Return post_page)
    (Return (JObj full_analysis)).

(** The model answers with status 300 and a complete analysis. *)
Definition redirect_world : World :=
  constant_world (Return (ok_response "<html>"))
    (Return (mkResponse 300 "Multiple Choices"
               "https://api.groq.com/openai/v1/chat/completions" "{}"))
    (Return (completion "{}")) (Return post_page)
    (Return (JObj full_analysis)).

End Samples.

(** ** More sample worlds *)

Module Cases.

(** The model endpoint answers with [data] as decoded body. *)
Definition completion_world (data : Result json) : World :=
  Samples.constant_world (Return (Samples.ok_response "<html>"))
    (Return (Samples.ok_response "{}")) data (Return Samples.post_page)
    (Return (JObj Samples.full_analysis)).

(** A completion without any choice. *)
Definition no_choices : gmap string json := {[ "choices" := JArr [] ]}.

(** A completion whose first choice has no message. *)
Definition no_message : json :=
  JObj {[ "choices" := JArr [JObj {[ "index" := JInt 0 ]}] ]}.

(** A completion whose message has a null content. *)
Definition null_content : json :=
  JObj {[ "choices" :=
            JArr [JObj {[ "message" :=
                            JObj {[ "role" := JStr "assistant";
                                    "content" := JNull ]} ]}] ]}.

(** The six key names, as a JSON array of strings. *)
Definition key_names : list json :=
  map JStr GroqAnalyzer.expected_keys.

(** What [requests] raises when a body is no JSON. *)
Definition not_json : exception :=
  mkExc RequestsJSONDecodeError "Expecting value: line 1 column 1 (char 0)".

End Cases.

(** ** Properties *)

(** *** Strings *)

Section Strings.

Import Str.

Lemma app_cons (c : ascii) (s t : string) :
  String c s +:+ t = String c (s +:+ t).
Proof. reflexivity. Qed.

Lemma rstrip_cons (c : ascii) (s : string) :
  rstrip (String c s) =
    if isspace c && String.eqb (rstrip s) "" then "" else String c (rstrip s).
Proof.
  simpl. destruct (rstrip s) as [|d r]; simpl.
  - by destruct (isspace c).
  - by rewrite andb_false_r.
Qed.

Lemma rstrip_cons_word (c : ascii) (s : string) :
  isspace c = false → rstrip (String c s) = String c (rstrip s).
Proof. intros Hc. by rewrite rstrip_cons, Hc. Qed.

Lemma rstrip_sub_ws (s : string) :
  rstrip (sub_ws false s) = squeeze InWord s
  ∧ rstrip (String " " (sub_ws true s)) = squeeze AfterSpace s.
Proof.
  induction s as [|c s [IH1 IH2]]; [done|].
  cbn [sub_ws squeeze on_space]. destruct (isspace c) eqn:Hc.
  - by rewrite IH2.
  - split.
    + by rewrite rstrip_cons_word, IH1.
    + rewrite rstrip_cons, rstrip_cons_word, IH1 by done. reflexivity.
Qed.

Lemma lstrip_sub_ws (s : string) :
  lstrip (sub_ws true s) = lstrip (sub_ws false s).
Proof. destruct s as [|c s]; [done|]. simpl. by destruct (isspace c). Qed.

(** Collapsing then trimming is the normal form read from the start. *)
Lemma strip_re_sub_ws (s : string) :
  strip (re_sub_ws s) = squeeze AtStart s.
Proof.
  unfold strip, re_sub_ws. induction s as [|c s IH]; [done|].
  cbn [sub_ws squeeze on_space]. destruct (isspace c) eqn:Hc.
  - cbn [lstrip]. change (isspace " ") with true. cbn iota.
    by rewrite lstrip_sub_ws.
  - cbn [lstrip]. rewrite Hc. rewrite rstrip_cons_word by done.
    by rewrite (proj1 (rstrip_sub_ws s)).
Qed.

Lemma squeeze_app (st : ws_state) (a b : string) :
  squeeze st (a +:+ b) = squeeze st a +:+ squeeze (state_after st a) b.
Proof.
  revert st. induction a as [|c a IH]; intros st; [done|].
  rewrite app_cons. cbn [squeeze state_after].
  destruct (isspace c); [apply IH|].
  destruct st; rewrite IH; reflexivity.
Qed.

Lemma on_space_idemp (st : ws_state) : on_space (on_space st) = on_space st.
Proof. by destruct st. Qed.

Lemma squeeze_lstrip (st : ws_state) (s : string) :
  st ≠ InWord →
  squeeze st (lstrip s) = squeeze st s
  ∧ state_after st (lstrip s) = state_after st s.
Proof.
  intros Hst. induction s as [|c s IH]; [done|].
  cbn [lstrip]. destruct (isspace c) eqn:Hc; [|done].
  cbn [squeeze state_after]. rewrite Hc.
  by replace (on_space st) with st by by destruct st.
Qed.

Lemma squeeze_rstrip (s : string) (st : ws_state) :
  squeeze st (rstrip s) = squeeze st s
  ∧ on_space (state_after st (rstrip s)) = on_space (state_after st s).
Proof.
  revert st. induction s as [|c s IH]; intros st; [done|].
  rewrite rstrip_cons.
  destruct (isspace c) eqn:Hc; cbn [andb].
  - destruct (String.eqb (rstrip s) "") eqn:He.
    + apply String.eqb_eq in He. cbn [squeeze state_after]. rewrite Hc.
      destruct (IH (on_space st)) as [IH1 IH2]. rewrite He in IH1, IH2.
      rewrite <- IH1, <- IH2. cbn [squeeze state_after].
      by rewrite on_space_idemp.
    + cbn [squeeze state_after]. rewrite Hc. apply IH.
  - cbn [squeeze state_after]. rewrite Hc.
    destruct (IH InWord) as [IH1 IH2]. by rewrite IH1, IH2.
Qed.

Lemma squeeze_strip (st : ws_state) (s : string) :
  st ≠ InWord →
  squeeze st (strip s) = squeeze st s
  ∧ on_space (state_after st (strip s)) = on_space (state_after st s).
Proof.
  intros Hst. unfold strip.
  destruct (squeeze_rstrip (lstrip s) st) as [-> ->].
  by destruct (squeeze_lstrip st s Hst) as [-> ->].
Qed.

Lemma on_space_not_word (st : ws_state) : on_space st ≠ InWord.
Proof. by destruct st. Qed.

Lemma join_cons2 (sep x y : string) (rest : list string) :
  join sep (x :: y :: rest) = x +:+ sep +:+ join sep (y :: rest).
Proof. reflexivity. Qed.

(** Trimming the items before joining them changes nothing once
    whitespace is normalised. *)
Lemma squeeze_join_strip (items : list string) (st : ws_state) :
  st ≠ InWord →
  squeeze st (join " " (map strip items)) = squeeze st (join " " items).
Proof.
  revert st. induction items as [|x [|y rest] IH]; intros st Hst; [done|..].
  - apply squeeze_strip, Hst.
  - change (map strip (x :: y :: rest))
      with (strip x :: strip y :: map strip rest).
    rewrite !join_cons2, !squeeze_app.
    destruct (squeeze_strip st x Hst) as [-> Hafter].
    f_equal. cbn [squeeze state_after]. change (isspace " ") with true.
    cbn iota. rewrite Hafter.
    apply (IH (on_space (state_after st x))), on_space_not_word.
Qed.

Lemma normalise_join_strip (items : list string) :
  strip (re_sub_ws (join " " (map strip items)))
  = strip (re_sub_ws (join " " items)).
Proof. rewrite !strip_re_sub_ws. by apply squeeze_join_strip. Qed.

Lemma all_space_app (a b : string) :
  all_space (a +:+ b) = all_space a && all_space b.
Proof.
  induction a as [|c a IH]; [done|].
  rewrite app_cons. cbn [all_space]. by rewrite IH, andb_assoc.
Qed.

Lemma all_space_join (items : list string) :
  Forall (λ s, all_space s = true) items → all_space (join " " items) = true.
Proof.
  induction 1 as [|x rest Hx Hrest IH]; [done|].
  destruct rest as [|y rest]; [done|].
  by rewrite join_cons2, !all_space_app, Hx, IH.
Qed.

Lemma squeeze_all_space (s : string) :
  all_space s = true → squeeze AtStart s = "".
Proof.
  induction s as [|c s IH]; [done|].
  cbn [all_space squeeze on_space]. intros [Hc Hs]%andb_true_iff.
  rewrite Hc. by apply IH.
Qed.

End Strings.

(** *** The parsed page *)

Section Page.

Import Bs4.

(** Induction on a page element with the property known of the children. *)
Lemma PageElement_children_ind (P : PageElement → Prop)
    (Hs : ∀ s, P (NavigableString s)) (Hc : ∀ s, P (Comment s))
    (Ht : ∀ n a cs, Forall P cs → P (Tag n a cs)) : ∀ e, P e.
Proof.
  exact (fix F (e : PageElement) : P e :=
    match e with
    | NavigableString s => Hs s
    | Comment s => Hc s
    | Tag n a cs =>
        Ht n a cs
          ((fix G (l : list PageElement) : Forall P l :=
              match l with
              | [] => List.Forall_nil P
              | c :: l' => List.Forall_cons P c l' (F c) (G l')
              end) cs)
    end).
Qed.

End Page.

Section Selection.

Import Bs4 WebScraper.

Lemma find_existsb {A} (f : A → bool) (l : list A) :
  List.find f l = None ↔ existsb f l = false.
Proof.
  induction l as [|x l IH]; [done|]. simpl. by destruct (f x).
Qed.

Lemma select_one_None (soup : PageElement) (sel : Selector) :
  select_one soup sel = None ↔ selects soup sel = false.
Proof. apply find_existsb. Qed.

Lemma select_article_cons (soup : PageElement) (sel : Selector)
    (rest : list Selector) (init : option PageElement) :
  select_article soup (sel :: rest) init =
    if selects soup sel then select_one soup sel
    else select_article soup rest None.
Proof.
  cbn [select_article]. destruct (selects soup sel) eqn:Hsel.
  - destruct (select_one soup sel) eqn:Hone; [done|].
    apply select_one_None in Hone. congruence.
  - apply select_one_None in Hsel. by rewrite Hsel.
Qed.

(** The container is the first element, in document order, that the
    first selector with a match selects. *)
Lemma select_article_first (soup : PageElement) (sels : list Selector) :
  select_article soup sels None =
    match List.find (selects soup) sels with
    | Some sel => List.find (matches sel) (descendants soup)
    | None => None
    end.
Proof.
  induction sels as [|sel rest IH]; [done|].
  rewrite select_article_cons. cbn [List.find].
  by destruct (selects soup sel).
Qed.

Lemma select_article_none (soup : PageElement) (sels : list Selector) :
  Forall (λ sel, selects soup sel = false) sels →
  select_article soup sels None = None.
Proof.
  intros H. rewrite select_article_first.
  destruct (List.find (selects soup) sels) as [sel|] eqn:Hfind; [|done].
  apply find_some in Hfind as [Hin Hsel].
  rewrite Forall_forall in H.
  by rewrite (H sel (proj2 (list_elem_of_In _ _) Hin)) in Hsel.
Qed.

End Selection.

(** *** Removing the unwanted elements *)

Section Cleaning.

Import Bs4 WebScraper.

Lemma descendants_Tag (n : string) (a : list (string * string))
    (cs : list PageElement) (x : PageElement) :
  x ∈ descendants (Tag n a cs) ↔
  ∃ c, c ∈ cs ∧ (x = c ∨ x ∈ descendants c).
Proof.
  cbn [descendants]. rewrite list_elem_of_In, in_flat_map. split.
  - intros (c & Hc & Hx). exists c. rewrite <- list_elem_of_In in Hc.
    split; [done|]. destruct Hx as [->|Hx]; [by left|right].
    by apply list_elem_of_In.
  - intros (c & Hc & Hx). exists c. rewrite <- list_elem_of_In.
    split; [done|]. destruct Hx as [->|Hx]; [by left|right].
    by apply list_elem_of_In.
Qed.

Lemma decompose_all_children (t : string) (cs : list PageElement)
    (c' : PageElement) :
  c' ∈ flat_map (λ c, if is_tag t c then [] else [decompose_all t c]) cs ↔
  ∃ c, c ∈ cs ∧ is_tag t c = false ∧ c' = decompose_all t c.
Proof.
  rewrite list_elem_of_In, in_flat_map. split.
  - intros (c & Hc & Hx). exists c. rewrite <- list_elem_of_In in Hc.
    destruct (is_tag t c); [done|]. destruct Hx as [<-|[]]. done.
  - intros (c & Hc & Ht & ->). exists c. rewrite <- list_elem_of_In, Ht.
    split; [done|]. by left.
Qed.

(** What is left below a cleaned element comes from below the element. *)
Lemma descendants_decompose_all (t : string) (e x : PageElement) :
  x ∈ descendants (decompose_all t e) →
  ∃ y, y ∈ descendants e ∧ x = decompose_all t y.
Proof.
  revert x. induction e as [s|s|n a cs IH] using PageElement_children_ind;
    intros x; cbn [decompose_all]; [by intros ?%elem_of_nil..|].
  rewrite descendants_Tag.
  intros (c' & (c & Hc & _ & ->)%decompose_all_children & Hx).
  rewrite Forall_forall in IH.
  destruct Hx as [->|Hx].
  - exists c. split; [|done]. apply descendants_Tag. exists c. auto.
  - destruct (IH c Hc x Hx) as (y & Hy & ->). exists y. split; [|done].
    apply descendants_Tag. exists c. auto.
Qed.

Lemma is_tag_decompose_all (name t : string) (e : PageElement) :
  is_tag name (decompose_all t e) = is_tag name e.
Proof. by destruct e. Qed.

Lemma all_space_concat (l : list string) :
  Forall (λ s, Str.all_space s = true) l →
  Str.all_space (String.concat "" l) = true.
Proof.
  induction 1 as [|x rest Hx Hrest IH]; [done|].
  destruct rest as [|y rest]; [done|].
  change (String.concat "" (x :: y :: rest))
    with (x +:+ "" +:+ String.concat "" (y :: rest)).
  by rewrite !all_space_app, Hx, IH.
Qed.

Lemma all_space_concat_inv (l : list string) :
  Str.all_space (String.concat "" l) = true →
  Forall (λ s, Str.all_space s = true) l.
Proof.
  induction l as [|x rest IH]; [by constructor|].
  destruct rest as [|y rest]; [by repeat constructor|].
  change (String.concat "" (x :: y :: rest))
    with (x +:+ "" +:+ String.concat "" (y :: rest)).
  rewrite !all_space_app. intros [Hx [_ H]%andb_true_iff]%andb_true_iff.
  constructor; [done|]. by apply IH.
Qed.

(** Cleaning an element whose text is blank leaves its text blank. *)
Lemma all_space_decompose_all (t : string) (e : PageElement) :
  Str.all_space (get_text e) = true →
  Str.all_space (get_text (decompose_all t e)) = true.
Proof.
  induction e as [s|s|n a cs IH] using PageElement_children_ind;
    cbn [decompose_all get_text]; [done..|].
  intros H%all_space_concat_inv. apply all_space_concat.
  rewrite List.Forall_map in *. rewrite Forall_forall in *.
  intros c' (c & Hc & _ & ->)%decompose_all_children. auto.
Qed.

Lemma descendants_decompose_tags (tags : list string) (e x : PageElement) :
  x ∈ descendants (decompose_tags tags e) →
  ∃ y, y ∈ descendants e ∧ x = decompose_tags tags y.
Proof.
  revert e x. induction tags as [|t tags IH]; intros e x.
  - intros H. by exists x.
  - cbn [decompose_tags fold_left]. intros (y & Hy & ->)%IH.
    apply descendants_decompose_all in Hy as (z & Hz & ->). by exists z.
Qed.

Lemma is_tag_decompose_tags (name : string) (tags : list string)
    (e : PageElement) :
  is_tag name (decompose_tags tags e) = is_tag name e.
Proof.
  revert e. induction tags as [|t tags IH]; intros e; [done|].
  cbn [decompose_tags fold_left]. fold (decompose_tags tags).
  by rewrite IH, is_tag_decompose_all.
Qed.

Lemma all_space_decompose_tags (tags : list string) (e : PageElement) :
  Str.all_space (get_text e) = true →
  Str.all_space (get_text (decompose_tags tags e)) = true.
Proof.
  revert e. induction tags as [|t tags IH]; intros e He; [done|].
  cbn [decompose_tags fold_left]. by apply IH, all_space_decompose_all.
Qed.

(** Blank paragraphs stay blank through the cleaning, and no paragraph
    appears. *)
Lemma blank_paragraphs_remove_unwanted (article : PageElement) :
  Forall (λ p, Str.all_space (get_text p) = true) (find_all article "p") →
  Forall (λ p, Str.all_space (get_text p) = true)
         (find_all (remove_unwanted article) "p").
Proof.
  unfold find_all. rewrite !Forall_forall.
  intros H p' [Hp' Htag]%list_elem_of_In%filter_In.
  apply list_elem_of_In, descendants_decompose_tags in Hp' as (p & Hp & ->).
  rewrite is_tag_decompose_tags in Htag.
  apply all_space_decompose_tags, H, list_elem_of_In, filter_In.
  split; [by apply list_elem_of_In|done].
Qed.

Lemma article_text_assembled (article : PageElement) :
  article_text article = assembled_text article.
Proof.
  unfold article_text, assembled_text.
  rewrite <- (normalise_join_strip (map get_text (find_all article "p"))).
  by rewrite List.map_map.
Qed.

Lemma article_text_blank (article : PageElement) :
  Forall (λ p, Str.all_space (get_text p) = true) (find_all article "p") →
  article_text article = "".
Proof.
  intros H. rewrite article_text_assembled. unfold assembled_text.
  rewrite strip_re_sub_ws. apply squeeze_all_space, all_space_join.
  by apply Forall_fmap.
Qed.

End Cleaning.

(** *** Exceptions and handlers *)

Section Handlers.

Lemma isinstance_Exception (e : exception) : isinstance e Exception = true.
Proof.
  unfold isinstance, issubclass. apply bool_decide_eq_true_2.
  destruct (exc_class e); cbn [mro]; set_solver.
Qed.

(** A [try] whose last clause is [except Exception] always returns
    when its handlers do. *)
Lemma try_except_Exception {A} (body : M A) (h : exception → M A)
    (log : list LogRecord) :
  try_except body [(Exception, h)] log =
    match body log with
    | (Return a, log') => (Return a, log')
    | (Raise e, log') => h e log'
    end.
Proof.
  unfold try_except. destruct (body log) as [[a|e] log']; [done|].
  cbn [find_handler]. by rewrite isinstance_Exception.
Qed.

End Handlers.

(** *** Status codes *)

Lemma http_error_msg_error (r : Response) :
  (400 ≤ status_code r < 600)%Z → http_error_msg r ≠ "".
Proof.
  intros Hstatus. unfold http_error_msg.
  destruct ((400 <=? status_code r) && (status_code r <? 500))%Z eqn:H4.
  - destruct (pretty (status_code r)); discriminate.
  - destruct ((500 <=? status_code r) && (status_code r <? 600))%Z eqn:H5.
    + destruct (pretty (status_code r)); discriminate.
    + lia.
Qed.

Lemma raise_for_status_error (r : Response) :
  (400 ≤ status_code r < 600)%Z →
  raise_for_status r = Raise (mkExc HTTPError (http_error_msg r)).
Proof.
  intros H%http_error_msg_error%String.eqb_neq.
  unfold raise_for_status. by rewrite H.
Qed.

Lemma raise_for_status_other (r : Response) :
  ¬ (400 ≤ status_code r < 600)%Z → raise_for_status r = Return ().
Proof.
  intros H. unfold raise_for_status, http_error_msg.
  destruct ((400 <=? status_code r) && (status_code r <? 500))%Z eqn:H4;
    [lia|].
  destruct ((500 <=? status_code r) && (status_code r <? 600))%Z eqn:H5;
    [lia|done].
Qed.

(** *** extract_article *)

Section Extraction.

Import WebScraper.

Variable w : World.
Variable url : string.

Lemma extract_article_outcome (log : list LogRecord) :
  outcome (extract_article w url) log =
    match outcome (extract_article_try w url) log with
    | Return r => Return r
    | Raise _ => Return ("", "")
    end.
Proof.
  unfold extract_article, outcome. rewrite try_except_Exception.
  by destruct (extract_article_try w url log) as [[r|e] log'].
Qed.

Lemma extract_article_try_page (log : list LogRecord) (r : Response)
    (soup : PageElement) :
  session_get w url headers 30 = Return r →
  raise_for_status r = Return () →
  BeautifulSoup w (text r) "html.parser" = Return soup →
  outcome (extract_article_try w url) log =
    match select_article soup selectors None with
    | None => Raise (mkExc ValueError "Could not find article content")
    | Some article =>
        Return (match Bs4.find soup "h1" with
                | Some t => Str.strip (Bs4.get_text t)
                | None => ""
                end,
                article_text (remove_unwanted article))
    end.
Proof.
  intros Hget Hstatus Hsoup.
  unfold outcome, extract_article_try, mbind, M_bind, call.
  rewrite Hget, Hstatus, Hsoup.
  by destruct (select_article soup selectors None).
Qed.

(** A fetch that raises (a timeout, a refused connection, a malformed
    URL) ends in the pair of empty strings. *)
Lemma extract_article_fetch_error (log : list LogRecord) (e : exception) :
  session_get w url headers 30 = Raise e →
  outcome (extract_article w url) log = Return ("", "").
Proof.
  intros Hget. rewrite extract_article_outcome.
  unfold outcome, extract_article_try, mbind, M_bind, call.
  by rewrite Hget.
Qed.

(** A page answered with a 4xx or 5xx status ends in the pair of empty
    strings. *)
Lemma extract_article_http_error (log : list LogRecord) (r : Response) :
  session_get w url headers 30 = Return r →
  (400 ≤ status_code r < 600)%Z →
  outcome (extract_article w url) log = Return ("", "").
Proof.
  intros Hget Hstatus. rewrite extract_article_outcome.
  unfold outcome, extract_article_try, mbind, M_bind, call.
  by rewrite Hget, (raise_for_status_error r Hstatus).
Qed.

End Extraction.

(** *** analyze_text *)

Section Analysis.

Import GroqAnalyzer.

Variable w : World.
Variable api_key : option string.
Variables title text : string.

Lemma analyze_text_outcome (log : list LogRecord) :
  outcome (analyze_text w api_key title text) log =
    match outcome (analyze_text_try w api_key title text) log with
    | Return analysis => Return analysis
    | Raise e =>
        if isinstance e RequestException
        then Return (connect_failure (str e))
        else Return (analyze_failure (str e))
    end.
Proof.
  unfold analyze_text, try_except, outcome.
  destruct (analyze_text_try w api_key title text log) as [[a|e] log'];
    [done|].
  cbn [find_handler fst]. destruct (isinstance e RequestException).
  - reflexivity.
  - rewrite isinstance_Exception. reflexivity.
Qed.

Lemma analyze_text_try_replies (analysis_text : json)
    (log : list LogRecord) :
  replies w api_key title text analysis_text →
  analyze_text_try w api_key title text log =
    parse_analysis w analysis_text log.
Proof.
  intros (response & data & choices & choice & message & Hpost & Hstatus
          & Hjson & Hin & Hchoices & Htruthy & Hchoice & Hmessage & Hcontent).
  unfold analyze_text_try, mbind, M_bind, call, choices_missing.
  rewrite Hpost, Hstatus, Hjson, Hin, Hchoices, Htruthy. cbn [negb].
  by rewrite Hchoice, Hmessage, Hcontent.
Qed.

Lemma all_in_dict (keys : list string) (fields : gmap string json) :
  Py.all_in keys (JObj fields) = Return (has_keys keys fields).
Proof.
  induction keys as [|key keys IH]; [done|].
  cbn [Py.all_in Py.contains has_keys forallb].
  by destruct (bool_decide (is_Some (fields !! key))).
Qed.

(** An object with every expected key is returned as it is. *)
Lemma parse_analysis_complete (s : string) (fields : gmap string json)
    (log : list LogRecord) :
  json_loads w s = Return (JObj fields) →
  has_keys expected_keys fields = true →
  parse_analysis w (JStr s) log = (Return (JObj fields), log).
Proof.
  intros Hloads Hkeys.
  unfold parse_analysis, try_except, mbind, M_bind, call, json_loads_obj.
  by rewrite Hloads, all_in_dict, Hkeys.
Qed.

(** An object without one of the expected keys raises a [ValueError]. *)
Lemma parse_analysis_missing (s : string) (fields : gmap string json)
    (log : list LogRecord) :
  json_loads w s = Return (JObj fields) →
  has_keys expected_keys fields = false →
  parse_analysis w (JStr s) log =
    (Raise (mkExc ValueError "Missing required keys in analysis response"),
     log).
Proof.
  intros Hloads Hkeys.
  unfold parse_analysis, try_except, mbind, M_bind, call, json_loads_obj.
  by rewrite Hloads, all_in_dict, Hkeys.
Qed.

(** A payload that does not decode raises a [ValueError] naming the
    decoding failure. *)
Lemma parse_analysis_invalid (s : string) (e : exception)
    (log : list LogRecord) :
  json_loads w s = Raise e →
  isinstance e JSONDecodeError = true →
  outcome (parse_analysis w (JStr s)) log =
    Raise (mkExc ValueError ("Invalid JSON response from GROQ: " +:+ str e)).
Proof.
  intros Hloads Hclass.
  unfold outcome, parse_analysis, try_except, mbind, M_bind, call,
    json_loads_obj.
  rewrite Hloads. cbn [find_handler]. by rewrite Hclass.
Qed.

End Analysis.

(** *** The view *)

Section View.

Variable w : World.
Variable GROQ_API_KEY : option string.

Lemma analyze_outcome (form : list (string * string))
    (log : list LogRecord) :
  outcome (analyze w GROQ_API_KEY form) log =
    match outcome (analyze_try w GROQ_API_KEY form) log with
    | Return r => Return r
    | Raise e => Return (JObj {[ "error" := JStr (str e) ]}, 500%Z)
    end.
Proof.
  unfold analyze, outcome. rewrite try_except_Exception.
  by destruct (analyze_try w GROQ_API_KEY form log) as [[r|e] log'].
Qed.

(** Past the checks on the URL, the view is the extraction followed by
    the analysis. *)
Lemma analyze_try_posts_url (form : list (string * string)) (url : string)
    (log : list LogRecord) :
  posts_url form url →
  analyze_try w GROQ_API_KEY form log =
    match WebScraper.extract_article w url log with
    | (Raise e, log') => (Raise e, log')
    | (Return (title, text), log') =>
        if String.eqb text ""
        then (Return (JObj {[ "error" := JStr "Failed to extract article content" ]}, 400%Z), log')
        else
          match GroqAnalyzer.analyze_text w GROQ_API_KEY title text log' with
          | (Raise e, log'') => (Raise e, log'')
          | (Return analysis, log'') =>
              match Py.contains "error" analysis with
              | Raise e => (Raise e, log'')
              | Return true => (Return (analysis, 500%Z), log'')
              | Return false => (Return (analysis, 200%Z), log'')
              end
          end
    end.
Proof.
  intros (Hform & Hne & Hprefix). unfold analyze_try. rewrite Hform.
  destruct url as [|c url']; [done|]. rewrite Hprefix. cbn [negb].
  unfold mbind, M_bind, call, jsonify.
  destruct (WebScraper.extract_article w (String c url') log)
    as [[[title text]|e] log']; [|done].
  destruct (String.eqb text ""); [done|].
  destruct (GroqAnalyzer.analyze_text w GROQ_API_KEY title text log')
    as [[analysis|e] log'']; [|done].
  by destruct (Py.contains "error" analysis) as [[]|].
Qed.

End View.

(** ** The claims of the specification *)

Lemma outcome_Return {A} (m : M A) (log : list LogRecord) (a : A) :
  outcome m log = Return a → ∃ log', m log = (Return a, log').
Proof.
  unfold outcome. destruct (m log) as [r log']. cbn [fst].
  intros ->. by exists log'.
Qed.

(** Settles a hypothesis on a sample world by evaluation. *)
Ltac evaluate :=
  lazymatch goal with
  | |- replies _ _ _ _ _ =>
      do 5 eexists; repeat (apply conj); vm_compute; reflexivity
  | |- fetches _ _ _ =>
      eexists; repeat (apply conj); vm_compute; reflexivity
  | |- posts_url _ _ =>
      apply conj; [|apply conj]; [vm_compute; reflexivity | discriminate
                                 | vm_compute; reflexivity]
  | |- _ => vm_compute; reflexivity
  end.

(** C1. When the payload of the model decodes to an object that lacks one
    of the six required keys, [analyze_text] returns the generic failure
    mapping, with the message of the validation as details; and of the six
    required keys the lines of the prompt name four only: sentiment and
    target_audience occur in none of them. *)
Theorem missing_key_generic_failure (w : World) (api_key : option string)
    (title text s : string) (fields : gmap string json)
    (log : list LogRecord) :
  replies w api_key title text (JStr s) →
  json_loads w s = Return (JObj fields) →
  has_keys GroqAnalyzer.expected_keys fields = false →
  outcome (GroqAnalyzer.analyze_text w api_key title text) log
    = Return (JObj {[ "error" := JStr "Failed to analyze text";
                      "details" := JStr "Missing required keys in analysis response" ]})
  ∧ GroqAnalyzer.expected_keys
    = ["summary"; "key_points"; "sentiment"; "topics"; "writing_style";
       "target_audience"]
  ∧ List.filter
      (λ k, existsb (Str.contains k) GroqAnalyzer.prompt_instructions)
      GroqAnalyzer.expected_keys
    = ["summary"; "key_points"; "topics"; "writing_style"].
Proof.
  intros Hreplies Hloads Hkeys. split; [|split; [done|by vm_compute]].
  rewrite analyze_text_outcome. unfold outcome.
  rewrite (analyze_text_try_replies _ _ _ _ _ _ Hreplies).
  by rewrite (parse_analysis_missing _ _ _ _ Hloads Hkeys).
Qed.

(** An answer holding the four keys the prompt lists, and no more. *)
Lemma missing_key_generic_failure_witness :
  outcome (GroqAnalyzer.analyze_text
             (Samples.answering_world Samples.post_page
                (Return (JObj Samples.prompted_analysis)))
             (Some "key") "Title" "a b c d") []
  = Return (JObj {[ "error" := JStr "Failed to analyze text";
                    "details" := JStr "Missing required keys in analysis response" ]}).
Proof.
  refine (proj1 (missing_key_generic_failure
                   (Samples.answering_world Samples.post_page
                      (Return (JObj Samples.prompted_analysis)))
                   (Some "key") "Title" "a b c d" "{}"
                   Samples.prompted_analysis [] _ _ _)).
  - evaluate.
  - evaluate.
  - evaluate.
Defined.

(** C2. When the payload of the model does not decode as JSON, the inner
    handler raises an error naming the decoding failure, the outer handler
    catches it, and the caller receives the generic failure mapping; no
    value of the mapping is the text Invalid JSON response from GROQ. *)
Theorem invalid_json_generic_failure (w : World) (api_key : option string)
    (title text s : string) (e : exception) (log : list LogRecord) :
  replies w api_key title text (JStr s) →
  json_loads w s = Raise e →
  isinstance e JSONDecodeError = true →
  outcome (GroqAnalyzer.analyze_text_try w api_key title text) log
    = Raise (mkExc ValueError ("Invalid JSON response from GROQ: " +:+ str e))
  ∧ outcome (GroqAnalyzer.analyze_text w api_key title text) log
    = Return (JObj {[ "error" := JStr "Failed to analyze text";
                      "details" := JStr ("Invalid JSON response from GROQ: " +:+ str e) ]})
  ∧ ∀ fields key,
      outcome (GroqAnalyzer.analyze_text w api_key title text) log
        = Return (JObj fields) →
      fields !! key ≠ Some (JStr "Invalid JSON response from GROQ").
Proof.
  intros Hreplies Hloads Hclass.
  assert (outcome (GroqAnalyzer.analyze_text_try w api_key title text) log
    = Raise (mkExc ValueError ("Invalid JSON response from GROQ: " +:+ str e)))
    as Htry.
  { unfold outcome. rewrite (analyze_text_try_replies _ _ _ _ _ _ Hreplies).
    by apply parse_analysis_invalid. }
  assert (outcome (GroqAnalyzer.analyze_text w api_key title text) log
    = Return (GroqAnalyzer.analyze_failure
                ("Invalid JSON response from GROQ: " +:+ str e))) as Hout.
  { rewrite analyze_text_outcome, Htry. reflexivity. }
  split; [done|]. split; [done|].
  intros fields key. rewrite Hout. intros [= <-].
  destruct (decide (key = "error")) as [->|Herr].
  { rewrite (lookup_insert_eq (M:=gmap string)). by intros [=]. }
  rewrite (lookup_insert_ne (M:=gmap string)) by done.
  destruct (decide (key = "details")) as [->|Hdet].
  { rewrite (lookup_singleton_eq (M:=gmap string)). by intros [=]. }
  by rewrite (lookup_singleton_ne (M:=gmap string)).
Qed.

(** A payload on which the decoder fails at its first character. *)
Lemma invalid_json_generic_failure_witness :
  outcome (GroqAnalyzer.analyze_text
             (Samples.answering_world Samples.post_page
                (Raise (mkExc JSONDecodeError
                          "Expecting value: line 1 column 1 (char 0)")))
             None "Title" "a b c d") []
  = Return (JObj {[ "error" := JStr "Failed to analyze text";
                    "details" := JStr "Invalid JSON response from GROQ: Expecting value: line 1 column 1 (char 0)" ]}).
Proof.
  refine (proj1 (proj2 (invalid_json_generic_failure
            (Samples.answering_world Samples.post_page
               (Raise (mkExc JSONDecodeError
                         "Expecting value: line 1 column 1 (char 0)")))
            None "Title" "a b c d" "{}"
            (mkExc JSONDecodeError "Expecting value: line 1 column 1 (char 0)")
            [] _ _ _))).
  - evaluate.
  - evaluate.
  - evaluate.
Defined.

(** C3. Whatever the URL and whatever the fetch and the parser do,
    [extract_article] returns a pair to its caller: what the body of its
    [try] block returns, and the pair of empty strings on every path where
    that body raises. *)
Theorem extract_article_never_raises (w : World) (url : string)
    (log : list LogRecord) :
  outcome (WebScraper.extract_article w url) log
    = match outcome (WebScraper.extract_article_try w url) log with
      | Return (title, body) => Return (title, body)
      | Raise _ => Return ("", "")
      end
  ∧ ∃ title body,
      outcome (WebScraper.extract_article w url) log = Return (title, body).
Proof.
  rewrite extract_article_outcome.
  destruct (outcome (WebScraper.extract_article_try w url) log)
    as [[title body]|e]; eauto.
Qed.

(** C4. When the page of a request holds no element matching any of the
    structural selectors, the extraction returns an empty body and the
    view answers 400 with the error Failed to extract article content. *)
Theorem no_container_bad_request (w : World) (GROQ_API_KEY : option string)
    (form : list (string * string)) (url : string) (soup : PageElement)
    (log : list LogRecord) :
  posts_url form url →
  fetches w url soup →
  Forall (λ sel, selects soup sel = false) WebScraper.selectors →
  outcome (WebScraper.extract_article w url) log = Return ("", "")
  ∧ outcome (analyze w GROQ_API_KEY form) log
    = Return (JObj {[ "error" := JStr "Failed to extract article content" ]},
              400%Z).
Proof.
  intros Hform (r & Hget & Hstatus & Hsoup) Hnone.
  assert (outcome (WebScraper.extract_article w url) log = Return ("", ""))
    as Hout.
  { rewrite extract_article_outcome.
    rewrite (extract_article_try_page _ _ _ _ _ Hget Hstatus Hsoup).
    by rewrite select_article_none. }
  split; [done|].
  apply outcome_Return in Hout as [log' Hout].
  rewrite analyze_outcome. unfold outcome.
  by rewrite (analyze_try_posts_url _ _ _ _ _ Hform), Hout.
Qed.

(** A page with a heading and a paragraph outside any container. *)
Lemma no_container_bad_request_witness :
  outcome (analyze (Samples.answering_world Samples.bare_page
                      (Return (JObj Samples.full_analysis)))
                   (Some "key") Samples.form) []
  = Return (JObj {[ "error" := JStr "Failed to extract article content" ]},
            400%Z).
Proof.
  refine (proj2 (no_container_bad_request
            (Samples.answering_world Samples.bare_page
               (Return (JObj Samples.full_analysis)))
            (Some "key") Samples.form "https://example.org/post"
            Samples.bare_page [] _ _ _)).
  - evaluate.
  - evaluate.
  - repeat constructor.
Defined.

(** C7. On a fetched page the container is looked for with the fixed list
    of selectors, in this order: the article element, a div whose class
    contains article, then content, then post, and the main element.  The
    first selector that matches at least one element decides, and gives its
    first match; when no selector matches, the extraction fails with an
    empty body. *)
Theorem container_by_first_matching_selector (w : World) (url : string)
    (soup : PageElement) (log : list LogRecord) :
  fetches w url soup →
  WebScraper.selectors
    = [TypeSelector "article";
       AttrContains "div" "class" "article";
       AttrContains "div" "class" "content";
       AttrContains "div" "class" "post";
       TypeSelector "main"]
  ∧ WebScraper.select_article soup WebScraper.selectors None
    = match List.find (selects soup) WebScraper.selectors with
      | Some sel => List.find (Bs4.matches sel) (Bs4.descendants soup)
      | None => None
      end
  ∧ match List.find (selects soup) WebScraper.selectors with
    | Some sel =>
        ∃ title article,
          Bs4.select_one soup sel = Some article
          ∧ outcome (WebScraper.extract_article w url) log
            = Return (title,
                      WebScraper.article_text
                        (WebScraper.remove_unwanted article))
    | None =>
        outcome (WebScraper.extract_article w url) log = Return ("", "")
    end.
Proof.
  intros (r & Hget & Hstatus & Hsoup). split; [done|].
  split; [apply select_article_first|].
  rewrite extract_article_outcome.
  rewrite (extract_article_try_page _ _ _ _ _ Hget Hstatus Hsoup).
  rewrite select_article_first.
  destruct (List.find (selects soup) WebScraper.selectors)
    as [sel|] eqn:Hfind; [|done].
  apply find_some in Hfind as [_ Hsel].
  unfold Bs4.select_one.
  destruct (List.find (Bs4.matches sel) (Bs4.descendants soup))
    as [article|] eqn:Hone; [eauto|].
  apply find_existsb in Hone. unfold selects in Hsel. congruence.
Qed.

(** A page whose container is a div of class post-body, before a main element. *)
Lemma container_by_first_matching_selector_witness :
  WebScraper.select_article Samples.post_page WebScraper.selectors None
  = match List.find (selects Samples.post_page) WebScraper.selectors with
    | Some sel =>
        List.find (Bs4.matches sel) (Bs4.descendants Samples.post_page)
    | None => None
    end.
Proof.
  refine (proj1 (proj2 (container_by_first_matching_selector
            (Samples.answering_world Samples.post_page
               (Return (JObj Samples.full_analysis)))
            "https://example.org/post" Samples.post_page [] _))).
  evaluate.
Defined.

(** C8. The body extracted from a matched container, once cleaned, is the
    texts of its paragraph elements joined by single spaces, with every
    run of whitespace collapsed to one space and the ends trimmed; a
    paragraph reading a, two line feeds, two spaces, b, three spaces, c
    gives the body a b c. *)
Theorem body_is_normalised_paragraph_text (w : World) (url : string)
    (soup article : PageElement) (log : list LogRecord) :
  fetches w url soup →
  WebScraper.select_article soup WebScraper.selectors None = Some article →
  (∃ title,
     outcome (WebScraper.extract_article w url) log
       = Return (title, assembled_text (WebScraper.remove_unwanted article)))
  ∧ WebScraper.article_text
      (Tag "article" [] [Tag "p" [] [NavigableString Samples.spaced_text]])
    = "a b c".
Proof.
  intros (r & Hget & Hstatus & Hsoup) Harticle. split; [|by vm_compute].
  rewrite extract_article_outcome.
  rewrite (extract_article_try_page _ _ _ _ _ Hget Hstatus Hsoup).
  rewrite Harticle, article_text_assembled. eauto.
Qed.

(** The same page: its container holds a navigation block and two paragraphs. *)
Lemma body_is_normalised_paragraph_text_witness :
  ∃ title,
    outcome (WebScraper.extract_article
               (Samples.answering_world Samples.post_page
                  (Return (JObj Samples.full_analysis)))
               "https://example.org/post") []
    = Return (title,
              assembled_text
                (WebScraper.remove_unwanted Samples.post_container)).
Proof.
  refine (proj1 (body_is_normalised_paragraph_text
            (Samples.answering_world Samples.post_page
               (Return (JObj Samples.full_analysis)))
            "https://example.org/post" Samples.post_page
            Samples.post_container [] _ _)).
  - evaluate.
  - evaluate.
Defined.

(** C10. When a selector matches a container that holds no paragraph
    element, or whose paragraphs all have a whitespace-only text, the
    extraction returns an empty body next to the title of the page, and the
    view answers 400 with the error Failed to extract article content,
    whatever the title. *)
Theorem blank_container_bad_request (w : World)
    (GROQ_API_KEY : option string) (form : list (string * string))
    (url : string) (soup article : PageElement) (log : list LogRecord) :
  posts_url form url →
  fetches w url soup →
  WebScraper.select_article soup WebScraper.selectors None = Some article →
  Bs4.find_all article "p" = [] ∨ Forall blank (Bs4.find_all article "p") →
  outcome (WebScraper.extract_article w url) log
    = Return (match Bs4.find soup "h1" with
              | Some t => Str.strip (Bs4.get_text t)
              | None => ""
              end, "")
  ∧ outcome (analyze w GROQ_API_KEY form) log
    = Return (JObj {[ "error" := JStr "Failed to extract article content" ]},
              400%Z).
Proof.
  intros Hform (r & Hget & Hstatus & Hsoup) Harticle Hblank.
  assert (Forall blank (Bs4.find_all article "p")) as Hall.
  { destruct Hblank as [->|H]; [constructor|done]. }
  set (title := match Bs4.find soup "h1" with
                | Some t => Str.strip (Bs4.get_text t)
                | None => ""
                end).
  assert (outcome (WebScraper.extract_article w url) log = Return (title, ""))
    as Hout.
  { rewrite extract_article_outcome.
    rewrite (extract_article_try_page _ _ _ _ _ Hget Hstatus Hsoup).
    rewrite Harticle. fold title. do 2 f_equal.
    by apply article_text_blank, blank_paragraphs_remove_unwanted. }
  split; [done|].
  apply outcome_Return in Hout as [log' Hout].
  rewrite analyze_outcome. unfold outcome.
  by rewrite (analyze_try_posts_url _ _ _ _ _ Hform), Hout.
Qed.

(** A titled page whose article element holds a blank and an empty paragraph. *)
Lemma blank_container_bad_request_witness :
  outcome (WebScraper.extract_article
             (Samples.answering_world Samples.blank_page
                (Return (JObj Samples.full_analysis)))
             "https://example.org/post") []
    = Return ("Title", "")
  ∧ outcome (analyze (Samples.answering_world Samples.blank_page
                        (Return (JObj Samples.full_analysis)))
                     (Some "key") Samples.form) []
    = Return (JObj {[ "error" := JStr "Failed to extract article content" ]},
              400%Z).
Proof.
  refine (blank_container_bad_request
            (Samples.answering_world Samples.blank_page
               (Return (JObj Samples.full_analysis)))
            (Some "key") Samples.form "https://example.org/post"
            Samples.blank_page Samples.blank_container [] _ _ _ _).
  - evaluate.
  - evaluate.
  - evaluate.
  - right. repeat constructor.
Defined.

Lemma analyze_text_complete (w : World) (api_key : option string)
    (title text s : string) (fields : gmap string json)
    (log : list LogRecord) :
  replies w api_key title text (JStr s) →
  json_loads w s = Return (JObj fields) →
  has_keys GroqAnalyzer.expected_keys fields = true →
  outcome (GroqAnalyzer.analyze_text w api_key title text) log
    = Return (JObj fields).
Proof.
  intros Hreplies Hloads Hkeys. rewrite analyze_text_outcome. unfold outcome.
  rewrite (analyze_text_try_replies _ _ _ _ _ _ Hreplies).
  by rewrite (parse_analysis_complete _ _ _ _ Hloads Hkeys).
Qed.

(** What the view answers once the extraction gave a body and the model a
    complete analysis. *)
Lemma analyze_complete (w : World) (GROQ_API_KEY : option string)
    (form : list (string * string)) (url title text s : string)
    (fields : gmap string json) (log : list LogRecord) :
  posts_url form url →
  outcome (WebScraper.extract_article w url) log = Return (title, text) →
  text ≠ "" →
  replies w GROQ_API_KEY title text (JStr s) →
  json_loads w s = Return (JObj fields) →
  has_keys GroqAnalyzer.expected_keys fields = true →
  outcome (analyze w GROQ_API_KEY form) log
    = Return (JObj fields,
              if bool_decide (is_Some (fields !! "error")) then 500%Z
              else 200%Z).
Proof.
  intros Hform [log' Hextract]%outcome_Return Htext%String.eqb_neq
    Hreplies Hloads Hkeys.
  destruct (outcome_Return _ log' _
              (analyze_text_complete _ _ _ _ _ _ log' Hreplies Hloads Hkeys))
    as [log'' Hanalysis].
  rewrite analyze_outcome. unfold outcome.
  rewrite (analyze_try_posts_url _ _ _ _ _ Hform), Hextract, Htext, Hanalysis.
  cbn [Py.contains]. by destruct (bool_decide (is_Some (fields !! "error"))).
Qed.

(** C5, as amended.  For a well-formed request with a non-empty extracted
    body, when the model returns an object holding the six required keys
    and no key named error, the view answers 200 with that object as
    body. *)
Theorem complete_analysis_ok (w : World) (GROQ_API_KEY : option string)
    (form : list (string * string)) (url title text s : string)
    (fields : gmap string json) (log : list LogRecord) :
  posts_url form url →
  outcome (WebScraper.extract_article w url) log = Return (title, text) →
  text ≠ "" →
  replies w GROQ_API_KEY title text (JStr s) →
  json_loads w s = Return (JObj fields) →
  has_keys GroqAnalyzer.expected_keys fields = true →
  fields !! "error" = None →
  outcome (analyze w GROQ_API_KEY form) log = Return (JObj fields, 200%Z).
Proof.
  intros Hform Hextract Htext Hreplies Hloads Hkeys Herror.
  rewrite (analyze_complete _ _ _ _ _ _ _ _ _
             Hform Hextract Htext Hreplies Hloads Hkeys).
  rewrite Herror. by rewrite bool_decide_eq_false_2 by by intros [? [=]].
Qed.

(** A complete analysis for the sample page. *)
Lemma complete_analysis_ok_witness :
  outcome (analyze (Samples.answering_world Samples.post_page
                      (Return (JObj Samples.full_analysis)))
                   (Some "key") Samples.form) []
  = Return (JObj Samples.full_analysis, 200%Z).
Proof.
  refine (complete_analysis_ok
            (Samples.answering_world Samples.post_page
               (Return (JObj Samples.full_analysis)))
            (Some "key") Samples.form "https://example.org/post"
            "Title" "a b c d" "{}" Samples.full_analysis [] _ _ _ _ _ _ _).
  - evaluate.
  - evaluate.
  - discriminate.
  - evaluate.
  - evaluate.
  - evaluate.
  - evaluate.
Defined.

(** C5, as stated, fails: an object with the six required keys and a key
    named error is answered with status 500. *)
Lemma complete_analysis_ok_counterexample :
  ¬ (∀ (w : World) (GROQ_API_KEY : option string)
       (form : list (string * string)) (url title text s : string)
       (fields : gmap string json) (log : list LogRecord),
       posts_url form url →
       outcome (WebScraper.extract_article w url) log = Return (title, text) →
       text ≠ "" →
       replies w GROQ_API_KEY title text (JStr s) →
       json_loads w s = Return (JObj fields) →
       has_keys GroqAnalyzer.expected_keys fields = true →
       outcome (analyze w GROQ_API_KEY form) log
         = Return (JObj fields, 200%Z)).
Proof.
  intros H.
  specialize (H (Samples.answering_world Samples.post_page
                   (Return (JObj Samples.flagged_analysis)))
                (Some "key") Samples.form "https://example.org/post"
                "Title" "a b c d" "{}" Samples.flagged_analysis []).
  assert (outcome (analyze (Samples.answering_world Samples.post_page
                              (Return (JObj Samples.flagged_analysis)))
                           (Some "key") Samples.form) []
          = Return (JObj Samples.flagged_analysis, 500%Z)) as Hrun
    by (vm_compute; reflexivity).
  rewrite Hrun in H.
  assert (Return (JObj Samples.flagged_analysis, 500%Z)
          = Return (JObj Samples.flagged_analysis, 200%Z)) as [=].
  apply H.
  - evaluate.
  - evaluate.
  - discriminate.
  - evaluate.
  - evaluate.
  - evaluate.
Qed.

(** C9. The view tells failure from success by the key error alone: an
    object of the model holding the six required keys and a key named
    error is returned as it is, with status 500. *)
Theorem error_key_decides_status (w : World) (GROQ_API_KEY : option string)
    (form : list (string * string)) (url title text s : string)
    (fields : gmap string json) (log : list LogRecord) :
  posts_url form url →
  outcome (WebScraper.extract_article w url) log = Return (title, text) →
  text ≠ "" →
  replies w GROQ_API_KEY title text (JStr s) →
  json_loads w s = Return (JObj fields) →
  has_keys GroqAnalyzer.expected_keys fields = true →
  is_Some (fields !! "error") →
  outcome (GroqAnalyzer.analyze_text w GROQ_API_KEY title text) log
    = Return (JObj fields)
  ∧ outcome (analyze w GROQ_API_KEY form) log = Return (JObj fields, 500%Z).
Proof.
  intros Hform Hextract Htext Hreplies Hloads Hkeys Herror.
  split; [by eapply analyze_text_complete|].
  rewrite (analyze_complete _ _ _ _ _ _ _ _ _
             Hform Hextract Htext Hreplies Hloads Hkeys).
  by rewrite bool_decide_eq_true_2.
Qed.

(** The complete analysis with a key named error added. *)
Lemma error_key_decides_status_witness :
  outcome (analyze (Samples.answering_world Samples.post_page
                      (Return (JObj Samples.flagged_analysis)))
                   (Some "key") Samples.form) []
  = Return (JObj Samples.flagged_analysis, 500%Z).
Proof.
  refine (proj2 (error_key_decides_status
            (Samples.answering_world Samples.post_page
               (Return (JObj Samples.flagged_analysis)))
            (Some "key") Samples.form "https://example.org/post"
            "Title" "a b c d" "{}" Samples.flagged_analysis []
            _ _ _ _ _ _ _)).
  - evaluate.
  - evaluate.
  - discriminate.
  - evaluate.
  - evaluate.
  - evaluate.
  - eexists. evaluate.
Defined.

(** C6, as amended.  When the request to the model raises a requests
    exception, or its response carries a 4xx or 5xx status, [analyze_text]
    returns exactly the mapping of the error Failed to connect to GROQ API
    with the message of the failure as details. *)
Theorem request_failure_reported (w : World) (api_key : option string)
    (title text details : string) (log : list LogRecord) :
  post_fails w api_key title text details →
  outcome (GroqAnalyzer.analyze_text w api_key title text) log
    = Return (JObj {[ "error" := JStr "Failed to connect to GROQ API";
                      "details" := JStr details ]}).
Proof.
  intros Hfails. rewrite analyze_text_outcome.
  unfold outcome, GroqAnalyzer.analyze_text_try, mbind, M_bind, call.
  destruct Hfails as [(e & -> & Hclass & ->)|(r & -> & Hstatus & ->)].
  - cbn [fst]. by rewrite Hclass.
  - by rewrite (raise_for_status_error r Hstatus).
Qed.

(** The model endpoint answers 503. *)
Lemma request_failure_reported_witness :
  outcome (GroqAnalyzer.analyze_text
             (Samples.failing_world
                (Return (mkResponse 503 "Service Unavailable"
                           "https://api.groq.com/openai/v1/chat/completions"
                           "")))
             (Some "key") "Title" "a b c d") []
  = Return (JObj {[ "error" := JStr "Failed to connect to GROQ API";
                    "details" := JStr "503 Server Error: Service Unavailable for url: https://api.groq.com/openai/v1/chat/completions" ]}).
Proof.
  refine (request_failure_reported
            (Samples.failing_world
               (Return (mkResponse 503 "Service Unavailable"
                          "https://api.groq.com/openai/v1/chat/completions"
                          "")))
            (Some "key") "Title" "a b c d" _ [] _).
  right. eexists. apply conj; [reflexivity|].
  apply conj; [cbn [status_code]; lia|]. vm_compute. reflexivity.
Defined.

(** C6, as stated, fails: a response with status 300 is no 2xx, yet it is
    read like a success and its analysis returned. *)
Lemma request_failure_reported_counterexample :
  ¬ (∀ (w : World) (api_key : option string) (title text : string)
       (log : list LogRecord) (r : Response),
       requests_post w GroqAnalyzer.api_url (GroqAnalyzer.headers api_key)
         (GroqAnalyzer.request_json (GroqAnalyzer.prompt title text))
         = Return r →
       ¬ (200 ≤ status_code r < 300)%Z →
       ∃ details,
         outcome (GroqAnalyzer.analyze_text w api_key title text) log
           = Return (JObj {[ "error" := JStr "Failed to connect to GROQ API";
                             "details" := JStr details ]})).
Proof.
  intros H.
  destruct (H Samples.redirect_world (Some "key") "Title" "a b c d" []
              (mkResponse 300 "Multiple Choices"
                 "https://api.groq.com/openai/v1/chat/completions" "{}"))
    as [details Hout].
  - reflexivity.
  - cbn [status_code]. lia.
  - assert (outcome (GroqAnalyzer.analyze_text Samples.redirect_world
                       (Some "key") "Title" "a b c d") []
            = Return (JObj Samples.full_analysis)) as Hrun
      by (vm_compute; reflexivity).
    rewrite Hrun in Hout.
    apply (f_equal (λ r : Result json,
                      match r with
                      | Return (JObj m) => m !! "summary"
                      | _ => None
                      end)) in Hout.
    vm_compute in Hout. discriminate Hout.
Qed.

(** ** Further properties of the code *)

(** *** Normalised text *)

Section NormalForm.

Import Str.

Lemma squeeze_squeeze_word (s : string) :
  squeeze InWord (squeeze InWord s) = squeeze InWord s
  ∧ squeeze InWord (squeeze AfterSpace s) = squeeze AfterSpace s.
Proof.
  induction s as [|c s [IH1 IH2]]; [done|].
  cbn [squeeze on_space]. destruct (isspace c) eqn:Hc; [done|].
  cbn [squeeze on_space]. rewrite Hc. change (isspace " ") with true.
  cbn iota. by rewrite IH1.
Qed.

(** Normalising twice is normalising once. *)
Lemma squeeze_idemp (s : string) :
  squeeze AtStart (squeeze AtStart s) = squeeze AtStart s.
Proof.
  induction s as [|c s IH]; [done|].
  cbn [squeeze on_space]. destruct (isspace c) eqn:Hc; [done|].
  cbn [squeeze on_space]. rewrite Hc.
  by rewrite (proj1 (squeeze_squeeze_word s)).
Qed.

Lemma lstrip_idemp (s : string) : lstrip (lstrip s) = lstrip s.
Proof.
  induction s as [|c s IH]; [done|].
  cbn [lstrip]. destruct (isspace c) eqn:Hc; [done|].
  cbn [lstrip]. by rewrite Hc.
Qed.

Lemma rstrip_idemp (s : string) : rstrip (rstrip s) = rstrip s.
Proof.
  induction s as [|c s IH]; [done|].
  rewrite (rstrip_cons c s).
  destruct (isspace c && String.eqb (rstrip s) "") eqn:Hend; [done|].
  by rewrite rstrip_cons, IH, Hend.
Qed.

Lemma lstrip_rstrip_lstrip (s : string) :
  lstrip (rstrip (lstrip s)) = rstrip (lstrip s).
Proof.
  induction s as [|c s IH]; [done|].
  cbn [lstrip]. destruct (isspace c) eqn:Hc; [done|].
  rewrite rstrip_cons_word by done. cbn [lstrip]. by rewrite Hc.
Qed.

Lemma strip_idemp (s : string) : strip (strip s) = strip s.
Proof.
  unfold strip. by rewrite lstrip_rstrip_lstrip, rstrip_idemp.
Qed.

Lemma squeeze_empty_all_space (s : string) :
  squeeze AtStart s = "" → all_space s = true.
Proof.
  induction s as [|c s IH]; [done|].
  cbn [squeeze on_space all_space]. destruct (isspace c); [done|].
  discriminate.
Qed.

Lemma all_space_app_inv (a b : string) :
  all_space (a +:+ b) = true → all_space a = true ∧ all_space b = true.
Proof. rewrite all_space_app. by intros ?%andb_true_iff. Qed.

Lemma all_space_join_inv (items : list string) :
  all_space (join " " items) = true →
  Forall (λ s, all_space s = true) items.
Proof.
  induction items as [|x rest IH]; [by constructor|].
  destruct rest as [|y rest]; [by repeat constructor|].
  rewrite join_cons2.
  intros [Hx [_ Hrest]%all_space_app_inv]%all_space_app_inv.
  constructor; [done|]. by apply IH.
Qed.

Lemma prefix_app (n b : string) : String.prefix n (n +:+ b) = true.
Proof.
  induction n as [|c n IH]; [by destruct b|].
  rewrite app_cons. cbn [String.prefix].
  destruct (ascii_dec c c); [done|congruence].
Qed.

Lemma contains_here (n b : string) : contains n (n +:+ b) = true.
Proof.
  destruct (n +:+ b) eqn:H; cbn [contains]; rewrite <- H, prefix_app; done.
Qed.

Lemma contains_app_r (n a b : string) :
  contains n b = true → contains n (a +:+ b) = true.
Proof.
  intros H. induction a as [|c a IH]; [done|].
  rewrite app_cons. cbn [contains]. rewrite IH. apply orb_true_r.
Qed.

End NormalForm.

(** *** What the cleaning removes and what it keeps *)

Section CleaningEffect.

Import Bs4 WebScraper.

Lemma filter_nil {A} (f : A → bool) (l : list A) :
  List.filter f l = [] ↔ ∀ x, x ∈ l → f x = false.
Proof.
  induction l as [|y l IH]; cbn [List.filter].
  - split; [|done]. by intros _ x ?%elem_of_nil.
  - destruct (f y) eqn:Hy.
    + split; [done|]. intros H. specialize (H y). rewrite Hy in H.
      discriminate H. by left.
    + rewrite IH. split.
      * intros H x [->|Hx]%elem_of_cons; auto.
      * intros H x Hx. apply H. by right.
Qed.

Lemma decompose_all_removes (t : string) (e x : PageElement) :
  x ∈ descendants (decompose_all t e) → is_tag t x = false.
Proof.
  revert x. induction e as [s|s|n a cs IH] using PageElement_children_ind;
    intros x; cbn [decompose_all]; [by intros ?%elem_of_nil..|].
  rewrite descendants_Tag.
  intros (c' & (c & Hc & Htag & ->)%decompose_all_children & Hx).
  rewrite Forall_forall in IH. destruct Hx as [->|Hx].
  - by rewrite is_tag_decompose_all.
  - by apply (IH c Hc).
Qed.

Lemma decompose_all_keeps_absence (t t' : string) (e x : PageElement) :
  (∀ y, y ∈ descendants e → is_tag t y = false) →
  x ∈ descendants (decompose_all t' e) → is_tag t x = false.
Proof.
  intros H (y & Hy & ->)%descendants_decompose_all.
  rewrite is_tag_decompose_all. by apply H.
Qed.

Lemma decompose_tags_removes (tags : list string) (e x : PageElement)
    (tag : string) :
  tag ∈ tags ∨ (∀ y, y ∈ descendants e → is_tag tag y = false) →
  x ∈ descendants (decompose_tags tags e) → is_tag tag x = false.
Proof.
  revert e. induction tags as [|t tags IH]; intros e Htag.
  - destruct Htag as [?%elem_of_nil|H]; [done|]. apply H.
  - cbn [decompose_tags fold_left]. apply IH.
    destruct Htag as [[->|Hin]%elem_of_cons|H].
    + right. intros y. apply decompose_all_removes.
    + by left.
    + right. intros y. by apply decompose_all_keeps_absence.
Qed.

Lemma decompose_all_id (t : string) (e : PageElement) :
  (∀ y, y ∈ descendants e → is_tag t y = false) → decompose_all t e = e.
Proof.
  induction e as [s|s|n a cs IH] using PageElement_children_ind;
    cbn [decompose_all]; [done..|].
  intros H. f_equal.
  assert (∀ c, c ∈ cs → is_tag t c = false ∧ decompose_all t c = c) as Hcs.
  { rewrite Forall_forall in IH. intros c Hc. split.
    - apply H, descendants_Tag. exists c. auto.
    - apply IH; [done|]. intros y Hy. apply H, descendants_Tag.
      exists c. auto. }
  clear IH H. induction cs as [|c cs IHcs]; [done|].
  cbn [flat_map]. destruct (Hcs c) as [-> ->]; [by left|].
  cbn [app]. f_equal. apply IHcs. intros c' Hc'. apply Hcs. by right.
Qed.

Lemma decompose_tags_id (tags : list string) (e : PageElement) :
  (∀ tag y, tag ∈ tags → y ∈ descendants e → is_tag tag y = false) →
  decompose_tags tags e = e.
Proof.
  induction tags as [|t tags IH]; intros H; [done|].
  cbn [decompose_tags fold_left]. rewrite decompose_all_id.
  - apply IH. intros tag y Htag. apply H. by right.
  - intros y Hy. apply (H t y); [by left|done].
Qed.

Lemma remove_unwanted_none_left (article : PageElement) (tag : string) :
  tag ∈ unwanted_tags → find_all (remove_unwanted article) tag = [].
Proof.
  intros Htag. apply filter_nil. intros x Hx.
  apply (decompose_tags_removes unwanted_tags article); [by left|done].
Qed.

Lemma remove_unwanted_id (article : PageElement) :
  Forall (λ tag, find_all article tag = []) unwanted_tags →
  remove_unwanted article = article.
Proof.
  intros H. apply (decompose_tags_id unwanted_tags).
  intros tag y Htag Hy. rewrite Forall_forall in H.
  by apply (proj1 (filter_nil _ _) (H tag Htag)).
Qed.

End CleaningEffect.

(** X1. After the cleaning loops, the container holds no script, style,
    nav, header, footer, aside, iframe, form or button element at any
    depth: [find_all] is empty for each of these names. *)
Theorem cleaned_container_has_no_unwanted (article : PageElement) :
  Forall (λ tag, Bs4.find_all (WebScraper.remove_unwanted article) tag = [])
         WebScraper.unwanted_tags.
Proof. apply Forall_forall. intros tag. apply remove_unwanted_none_left. Qed.

(** X2. The cleaning loops change nothing in a container that holds none
    of the unwanted elements: no content is lost by them. *)
Theorem clean_container_unchanged (article : PageElement) :
  Forall (λ tag, Bs4.find_all article tag = []) WebScraper.unwanted_tags →
  WebScraper.remove_unwanted article = article.
Proof. apply remove_unwanted_id. Qed.

(** A container with one paragraph and nothing to remove. *)
Lemma clean_container_unchanged_witness :
  WebScraper.remove_unwanted Samples.spaced_article = Samples.spaced_article.
Proof.
  apply (clean_container_unchanged Samples.spaced_article).
  repeat constructor.
Defined.

(** X3. Cleaning a container a second time changes nothing more. *)
Theorem remove_unwanted_idempotent (article : PageElement) :
  WebScraper.remove_unwanted (WebScraper.remove_unwanted article)
  = WebScraper.remove_unwanted article.
Proof.
  apply remove_unwanted_id, Forall_forall. intros tag.
  apply remove_unwanted_none_left.
Qed.

(** *** What a returned extraction tells *)

Section ExtractionResult.

Import WebScraper.

Variable w : World.
Variable url : string.

(** The [try] block of [extract_article] writes nothing to the log. *)
Lemma extract_article_try_log (log : list LogRecord) :
  (extract_article_try w url log).2 = log.
Proof.
  unfold extract_article_try, mbind, M_bind, call.
  destruct (session_get w url headers 30) as [r|e]; [|done].
  destruct (raise_for_status r) as [[]|e]; [|done].
  destruct (BeautifulSoup w (text r) "html.parser") as [soup|e]; [|done].
  by destruct (select_article soup selectors None).
Qed.

(** The [try] block returns only for a fetched page with a container. *)
Lemma extract_article_try_inv (log : list LogRecord) (title body : string) :
  outcome (extract_article_try w url) log = Return (title, body) →
  ∃ soup article,
    fetches w url soup
    ∧ select_article soup selectors None = Some article
    ∧ title = match Bs4.find soup "h1" with
              | Some t => Str.strip (Bs4.get_text t)
              | None => ""
              end
    ∧ body = article_text (remove_unwanted article).
Proof.
  unfold outcome, extract_article_try, mbind, M_bind, call.
  destruct (session_get w url headers 30) as [r|e] eqn:Hget; [|done].
  destruct (raise_for_status r) as [[]|e] eqn:Hstatus; [|done].
  destruct (BeautifulSoup w (text r) "html.parser") as [soup|e] eqn:Hsoup;
    [|done].
  destruct (select_article soup selectors None) as [article|] eqn:Harticle;
    [|done].
  cbn [fst]. intros [= <- <-]. exists soup, article.
  split; [by exists r|done].
Qed.

Lemma extract_article_log (log : list LogRecord) :
  (extract_article w url log).2 =
    match outcome (extract_article_try w url) log with
    | Return _ => log
    | Raise e =>
        (log ++ [mkLog ERROR
                   ("Error extracting from " +:+ url +:+ ": " +:+ str e)])%list
    end.
Proof.
  unfold extract_article, outcome. rewrite try_except_Exception.
  pose proof (extract_article_try_log log) as Hlog.
  destruct (extract_article_try w url log) as [[r|e] log']; cbn [fst snd] in *;
    by subst.
Qed.

End ExtractionResult.

(** X4. A body that [extract_article] returns non-empty comes from a page
    that was fetched without error status and parsed, in which a selector
    found a container: it is the normalised paragraph text of that
    container once cleaned, and the title is the trimmed text of the first
    h1 element, or empty without one. *)
Theorem extracted_body_origin (w : World) (url : string)
    (log : list LogRecord) (title body : string) :
  outcome (WebScraper.extract_article w url) log = Return (title, body) →
  body ≠ "" →
  ∃ soup article,
    fetches w url soup
    ∧ WebScraper.select_article soup WebScraper.selectors None = Some article
    ∧ title = match Bs4.find soup "h1" with
              | Some t => Str.strip (Bs4.get_text t)
              | None => ""
              end
    ∧ body = assembled_text (WebScraper.remove_unwanted article).
Proof.
  rewrite extract_article_outcome. intros Hout Hbody.
  destruct (outcome (WebScraper.extract_article_try w url) log)
    as [[t b]|e] eqn:Htry; [|by injection Hout as _ <-].
  injection Hout as -> ->.
  apply extract_article_try_inv in Htry
    as (soup & article & Hfetch & Hsel & Htitle & Hb).
  exists soup, article. by rewrite <- article_text_assembled.
Qed.

(** The sample page, whose body reads a b c d. *)
Lemma extracted_body_origin_witness :
  ∃ soup article,
    fetches (Samples.answering_world Samples.post_page
               (Return (JObj Samples.full_analysis)))
            "https://example.org/post" soup
    ∧ WebScraper.select_article soup WebScraper.selectors None = Some article
    ∧ "Title" = match Bs4.find soup "h1" with
                | Some t => Str.strip (Bs4.get_text t)
                | None => ""
                end
    ∧ "a b c d" = assembled_text (WebScraper.remove_unwanted article).
Proof.
  apply (extracted_body_origin
           (Samples.answering_world Samples.post_page
              (Return (JObj Samples.full_analysis)))
           "https://example.org/post" [] "Title" "a b c d").
  - vm_compute. reflexivity.
  - discriminate.
Defined.

(** X5. What [extract_article] returns is in normal form: the title has
    no whitespace at its ends, and collapsing and trimming the body again
    gives the body back, so the body has no whitespace at its ends and
    none inside but single spaces. *)
Theorem extracted_text_is_normalised (w : World) (url : string)
    (log : list LogRecord) (title body : string) :
  outcome (WebScraper.extract_article w url) log = Return (title, body) →
  Str.strip title = title
  ∧ Str.strip (Str.re_sub_ws body) = body.
Proof.
  rewrite extract_article_outcome. intros Hout.
  destruct (outcome (WebScraper.extract_article_try w url) log)
    as [[t b]|e] eqn:Htry; [|by injection Hout as <- <-].
  injection Hout as -> ->.
  apply extract_article_try_inv in Htry
    as (soup & article & _ & _ & -> & ->).
  split.
  - destruct (Bs4.find soup "h1"); [apply strip_idemp|done].
  - rewrite article_text_assembled. unfold assembled_text.
    rewrite !strip_re_sub_ws. apply squeeze_idemp.
Qed.

(** The sample page again. *)
Lemma extracted_text_is_normalised_witness :
  Str.strip "Title" = "Title"
  ∧ Str.strip (Str.re_sub_ws "a b c d") = "a b c d".
Proof.
  apply (extracted_text_is_normalised
           (Samples.answering_world Samples.post_page
              (Return (JObj Samples.full_analysis)))
           "https://example.org/post" []).
  vm_compute. reflexivity.
Defined.

(** X6. For a fetched page with a container, the extracted body is empty
    exactly when every paragraph left in the cleaned container is blank
    (none left included). *)
Theorem empty_body_iff_blank_paragraphs (w : World) (url : string)
    (soup article : PageElement) (log : list LogRecord) :
  fetches w url soup →
  WebScraper.select_article soup WebScraper.selectors None = Some article →
  (∃ title, outcome (WebScraper.extract_article w url) log = Return (title, ""))
  ↔ Forall blank (Bs4.find_all (WebScraper.remove_unwanted article) "p").
Proof.
  intros (r & Hget & Hstatus & Hsoup) Harticle.
  rewrite extract_article_outcome.
  rewrite (extract_article_try_page _ _ _ _ _ Hget Hstatus Hsoup), Harticle.
  split.
  - intros [title [= _ Hbody]]. rewrite article_text_assembled in Hbody.
    unfold assembled_text in Hbody. rewrite strip_re_sub_ws in Hbody.
    apply squeeze_empty_all_space, all_space_join_inv in Hbody.
    by apply List.Forall_map in Hbody.
  - intros Hblank. eexists. by rewrite article_text_blank.
Qed.

(** The page whose article holds blank paragraphs only. *)
Lemma empty_body_iff_blank_paragraphs_witness :
  (∃ title,
     outcome (WebScraper.extract_article
                (Samples.answering_world Samples.blank_page
                   (Return (JObj Samples.full_analysis)))
                "https://example.org/post") [] = Return (title, ""))
  ↔ Forall blank
      (Bs4.find_all (WebScraper.remove_unwanted Samples.blank_container) "p").
Proof.
  apply (empty_body_iff_blank_paragraphs
           (Samples.answering_world Samples.blank_page
              (Return (JObj Samples.full_analysis)))
           "https://example.org/post" Samples.blank_page
           Samples.blank_container []).
  - evaluate.
  - evaluate.
Defined.

(** X7. [extract_article] keeps the log as it is when it succeeds, and
    appends one ERROR record naming the URL and the exception on every
    path where its [try] block raises. *)
Theorem extract_article_logs_failures (w : World) (url : string)
    (log : list LogRecord) :
  (WebScraper.extract_article w url log).2 =
    match outcome (WebScraper.extract_article_try w url) log with
    | Return _ => log
    | Raise e =>
        (log ++ [mkLog ERROR
                   ("Error extracting from " +:+ url +:+ ": " +:+ str e)])%list
    end.
Proof. apply extract_article_log. Qed.

(** *** What analyze_text returns *)

Section AnalysisResult.

Import GroqAnalyzer.

Variable w : World.
Variable api_key : option string.
Variables title text : string.

(** The inner [try] block returns only a decoded payload that passed the
    test of the keys. *)
Lemma parse_analysis_inv (analysis_text v : json) (log : list LogRecord) :
  outcome (parse_analysis w analysis_text) log = Return v →
  json_loads_obj w analysis_text = Return v
  ∧ Py.all_in expected_keys v = Return true.
Proof.
  unfold outcome, parse_analysis, try_except, mbind, M_bind, call, raise.
  destruct (json_loads_obj w analysis_text) as [v'|e].
  - destruct (Py.all_in expected_keys v') as [[]|e] eqn:Hkeys; cbn [negb].
    + by intros [= ->].
    + done.
    + cbn [find_handler]. by destruct (isinstance e JSONDecodeError).
  - cbn [find_handler]. by destruct (isinstance e JSONDecodeError).
Qed.

Lemma parse_analysis_outcome_log (analysis_text : json)
    (log log' : list LogRecord) :
  outcome (parse_analysis w analysis_text) log
  = outcome (parse_analysis w analysis_text) log'.
Proof.
  unfold outcome, parse_analysis, try_except, mbind, M_bind, call, raise.
  destruct (json_loads_obj w analysis_text) as [v'|e].
  - destruct (Py.all_in expected_keys v') as [[]|e]; cbn [negb]; [done..|].
    cbn [find_handler]. by destruct (isinstance e JSONDecodeError).
  - cbn [find_handler]. by destruct (isinstance e JSONDecodeError).
Qed.

(** The outer [try] block is these calls followed by the inner block. *)
Lemma analyze_text_try_payload (log : list LogRecord) :
  analyze_text_try w api_key title text log =
    match payload_of w api_key title text with
    | Raise e => (Raise e, log)
    | Return analysis_text => parse_analysis w analysis_text log
    end.
Proof.
  unfold analyze_text_try, payload_of, mbind, M_bind, call, raise.
  destruct (requests_post w api_url (headers api_key)
              (request_json (prompt title text))) as [r|e]; [|done].
  destruct (raise_for_status r) as [[]|e]; [|done].
  destruct (response_json w r) as [data|e]; [|done].
  destruct (choices_missing data) as [[]|e]; [done| |done].
  destruct (Py.getitem data "choices") as [choices|e]; [|done].
  destruct (Py.getitem_int choices 0) as [choice|e]; [|done].
  destruct (Py.getitem choice "message") as [message|e]; [|done].
  by destruct (Py.getitem message "content") as [content|e].
Qed.

Lemma analyze_text_try_outcome_log (log log' : list LogRecord) :
  outcome (analyze_text_try w api_key title text) log
  = outcome (analyze_text_try w api_key title text) log'.
Proof.
  unfold outcome. rewrite !analyze_text_try_payload.
  destruct (payload_of w api_key title text) as [p|e]; [|done].
  apply parse_analysis_outcome_log.
Qed.

Lemma analyze_text_outcome_log (log log' : list LogRecord) :
  outcome (analyze_text w api_key title text) log
  = outcome (analyze_text w api_key title text) log'.
Proof.
  by rewrite !analyze_text_outcome, (analyze_text_try_outcome_log log log').
Qed.

(** The outer [try] block returns only a payload that passed the test of
    the keys. *)
Lemma analyze_text_try_inv (log : list LogRecord) (v : json) :
  outcome (analyze_text_try w api_key title text) log = Return v →
  Py.all_in expected_keys v = Return true.
Proof.
  unfold outcome. rewrite analyze_text_try_payload.
  destruct (payload_of w api_key title text) as [p|e]; [|done].
  by intros [_ H]%parse_analysis_inv.
Qed.

(** [analyze_text] returns one of its two failure mappings or a payload
    that passed the test of the keys. *)
Lemma analyze_text_cases (log : list LogRecord) :
  ∃ v, outcome (analyze_text w api_key title text) log = Return v
       ∧ ((∃ details, v = connect_failure details)
          ∨ (∃ details, v = analyze_failure details)
          ∨ Py.all_in expected_keys v = Return true).
Proof.
  rewrite analyze_text_outcome.
  destruct (outcome (analyze_text_try w api_key title text) log)
    as [v|e] eqn:Htry.
  - exists v. split; [done|]. do 2 right. by eapply analyze_text_try_inv.
  - destruct (isinstance e RequestException); eexists; split; eauto.
Qed.

End AnalysisResult.

(** X8. [analyze_text] never raises: it returns the connection failure
    mapping, the generic failure mapping, or a decoded payload in which
    the test of the six expected keys succeeded. *)
Theorem analyze_text_always_returns (w : World) (api_key : option string)
    (title text : string) (log : list LogRecord) :
  ∃ v, outcome (GroqAnalyzer.analyze_text w api_key title text) log = Return v
       ∧ ((∃ details,
             v = JObj {[ "error" := JStr "Failed to connect to GROQ API";
                         "details" := JStr details ]})
          ∨ (∃ details,
               v = JObj {[ "error" := JStr "Failed to analyze text";
                           "details" := JStr details ]})
          ∨ Py.all_in GroqAnalyzer.expected_keys v = Return true).
Proof. apply analyze_text_cases. Qed.

(** X9. A decoded response that is an object without choices, or with a
    choices member that is empty or otherwise false, gives the generic
    failure mapping with the details Invalid response format from GROQ
    API. *)
Theorem response_without_choices (w : World) (api_key : option string)
    (title text : string) (log : list LogRecord) (response : Response)
    (fields : gmap string json) :
  requests_post w GroqAnalyzer.api_url (GroqAnalyzer.headers api_key)
    (GroqAnalyzer.request_json (GroqAnalyzer.prompt title text))
    = Return response →
  raise_for_status response = Return () →
  response_json w response = Return (JObj fields) →
  (∀ choices, fields !! "choices" = Some choices → Py.truthy choices = false) →
  outcome (GroqAnalyzer.analyze_text w api_key title text) log
    = Return (JObj {[ "error" := JStr "Failed to analyze text";
                      "details" := JStr "Invalid response format from GROQ API" ]}).
Proof.
  intros Hpost Hstatus Hjson Hchoices.
  rewrite analyze_text_outcome. unfold outcome.
  rewrite analyze_text_try_payload. unfold payload_of.
  rewrite Hpost, Hstatus, Hjson.
  unfold GroqAnalyzer.choices_missing. cbn [Py.contains Py.getitem].
  destruct (fields !! "choices") as [choices|] eqn:Hlookup.
  - rewrite bool_decide_eq_true_2 by eauto.
    by rewrite (Hchoices choices eq_refl).
  - by rewrite bool_decide_eq_false_2 by by intros [? [=]].
Qed.

(** A completion with an empty list of choices. *)
Lemma response_without_choices_witness :
  outcome (GroqAnalyzer.analyze_text
             (Cases.completion_world (Return (JObj Cases.no_choices)))
             (Some "key") "Title" "a b c d") []
  = Return (JObj {[ "error" := JStr "Failed to analyze text";
                    "details" := JStr "Invalid response format from GROQ API" ]}).
Proof.
  refine (response_without_choices
            (Cases.completion_world (Return (JObj Cases.no_choices)))
            (Some "key") "Title" "a b c d" []
            (Samples.ok_response "{}") Cases.no_choices _ _ _ _).
  - reflexivity.
  - reflexivity.
  - reflexivity.
  - intros choices. vm_compute. by intros [= <-].
Defined.

(** X10. When the first choice is an object without a message member,
    [analyze_text] returns the generic failure mapping, and the details
    are the name of the missing key between single quotes. *)
Theorem choice_without_message (w : World) (api_key : option string)
    (title text : string) (log : list LogRecord) (response : Response)
    (response_data choices : json) (choice : gmap string json) :
  requests_post w GroqAnalyzer.api_url (GroqAnalyzer.headers api_key)
    (GroqAnalyzer.request_json (GroqAnalyzer.prompt title text))
    = Return response →
  raise_for_status response = Return () →
  response_json w response = Return response_data →
  Py.contains "choices" response_data = Return true →
  Py.getitem response_data "choices" = Return choices →
  Py.truthy choices = true →
  Py.getitem_int choices 0 = Return (JObj choice) →
  choice !! "message" = None →
  outcome (GroqAnalyzer.analyze_text w api_key title text) log
    = Return (JObj {[ "error" := JStr "Failed to analyze text";
                      "details" := JStr "'message'" ]}).
Proof.
  intros Hpost Hstatus Hjson Hin Hchoices Htruthy Hchoice Hmessage.
  rewrite analyze_text_outcome. unfold outcome.
  rewrite analyze_text_try_payload. unfold payload_of.
  rewrite Hpost, Hstatus, Hjson.
  unfold GroqAnalyzer.choices_missing.
  rewrite Hin, Hchoices, Htruthy. cbn [negb]. rewrite Hchoice.
  cbn [Py.getitem]. by rewrite Hmessage.
Qed.

(** A completion whose only choice carries an index and nothing else. *)
Lemma choice_without_message_witness :
  outcome (GroqAnalyzer.analyze_text
             (Cases.completion_world (Return Cases.no_message))
             (Some "key") "Title" "a b c d") []
  = Return (JObj {[ "error" := JStr "Failed to analyze text";
                    "details" := JStr "'message'" ]}).
Proof.
  refine (choice_without_message
            (Cases.completion_world (Return Cases.no_message))
            (Some "key") "Title" "a b c d" []
            (Samples.ok_response "{}") Cases.no_message
            (JArr [JObj {[ "index" := JInt 0 ]}]) {[ "index" := JInt 0 ]}
            _ _ _ _ _ _ _ _); evaluate.
Defined.

(** X11. When the content of the message is not a string (a null for
    instance), the decoder refuses it with a TypeError and [analyze_text]
    returns the generic failure mapping, whatever the decoder would do on
    a string. *)
Theorem content_not_a_string (w : World) (api_key : option string)
    (title text : string) (log : list LogRecord) (content : json) :
  replies w api_key title text content →
  (∀ s, content ≠ JStr s) →
  outcome (GroqAnalyzer.analyze_text w api_key title text) log
    = Return (JObj {[ "error" := JStr "Failed to analyze text";
                      "details" :=
                        JStr ("the JSON object must be str, bytes or bytearray, not "
                              +:+ Py.type_name content) ]}).
Proof.
  intros Hreplies Hcontent.
  rewrite analyze_text_outcome. unfold outcome.
  rewrite (analyze_text_try_replies _ _ _ _ _ _ Hreplies).
  unfold GroqAnalyzer.parse_analysis, try_except, mbind, M_bind, call.
  destruct content; try reflexivity. by destruct (Hcontent s).
Qed.

(** A completion whose message has a null content. *)
Lemma content_not_a_string_witness :
  outcome (GroqAnalyzer.analyze_text
             (Cases.completion_world (Return Cases.null_content))
             (Some "key") "Title" "a b c d") []
  = Return (JObj {[ "error" := JStr "Failed to analyze text";
                    "details" :=
                      JStr "the JSON object must be str, bytes or bytearray, not NoneType" ]}).
Proof.
  refine (content_not_a_string
            (Cases.completion_world (Return Cases.null_content))
            (Some "key") "Title" "a b c d" [] JNull _ _).
  - evaluate.
  - discriminate.
Defined.

Lemma all_in_list (keys : list string) (items : list json) :
  Py.all_in keys (JArr items) =
    Return (forallb (λ key, existsb (Py.is_str key) items) keys).
Proof.
  induction keys as [|key keys IH]; [done|].
  cbn [Py.all_in Py.contains forallb].
  by destruct (existsb (Py.is_str key) items).
Qed.

(** X12. The test of the keys does not ask for an object: a payload that
    decodes to an array holding the six key names as strings passes it and
    is returned as the analysis. *)
Theorem array_payload_passes (w : World) (api_key : option string)
    (title text s : string) (items : list json) (log : list LogRecord) :
  replies w api_key title text (JStr s) →
  json_loads w s = Return (JArr items) →
  forallb (λ key, existsb (Py.is_str key) items) GroqAnalyzer.expected_keys
    = true →
  outcome (GroqAnalyzer.analyze_text w api_key title text) log
    = Return (JArr items).
Proof.
  intros Hreplies Hloads Hkeys.
  rewrite analyze_text_outcome. unfold outcome.
  rewrite (analyze_text_try_replies _ _ _ _ _ _ Hreplies).
  unfold GroqAnalyzer.parse_analysis, try_except, mbind, M_bind, call,
    json_loads_obj.
  by rewrite Hloads, all_in_list, Hkeys.
Qed.

(** The payload is the array of the six key names. *)
Lemma array_payload_passes_witness :
  outcome (GroqAnalyzer.analyze_text
             (Samples.answering_world Samples.post_page
                (Return (JArr Cases.key_names)))
             (Some "key") "Title" "a b c d") []
  = Return (JArr Cases.key_names).
Proof.
  refine (array_payload_passes
            (Samples.answering_world Samples.post_page
               (Return (JArr Cases.key_names)))
            (Some "key") "Title" "a b c d" "{}" Cases.key_names [] _ _ _);
    evaluate.
Defined.

(** X13. A payload that decodes to null, a boolean or a number makes the
    test of the keys raise, and [analyze_text] returns the generic failure
    mapping. *)
Theorem scalar_payload_generic_failure (w : World)
    (api_key : option string) (title text s : string) (v : json)
    (log : list LogRecord) :
  replies w api_key title text (JStr s) →
  json_loads w s = Return v →
  match v with
  | JNull | JBool _ | JInt _ | JFloat _ => True
  | _ => False
  end →
  ∃ details,
    outcome (GroqAnalyzer.analyze_text w api_key title text) log
      = Return (JObj {[ "error" := JStr "Failed to analyze text";
                        "details" := JStr details ]}).
Proof.
  intros Hreplies Hloads Hscalar.
  rewrite analyze_text_outcome. unfold outcome.
  rewrite (analyze_text_try_replies _ _ _ _ _ _ Hreplies).
  unfold GroqAnalyzer.parse_analysis, try_except, mbind, M_bind, call,
    json_loads_obj.
  rewrite Hloads. destruct v; try done; by eexists.
Qed.

(** The payload is the number 42. *)
Lemma scalar_payload_generic_failure_witness :
  ∃ details,
    outcome (GroqAnalyzer.analyze_text
               (Samples.answering_world Samples.post_page (Return (JInt 42)))
               (Some "key") "Title" "a b c d") []
      = Return (JObj {[ "error" := JStr "Failed to analyze text";
                        "details" := JStr details ]}).
Proof.
  refine (scalar_payload_generic_failure
            (Samples.answering_world Samples.post_page (Return (JInt 42)))
            (Some "key") "Title" "a b c d" "{}" (JInt 42) [] _ _ _).
  - evaluate.
  - evaluate.
  - exact I.
Defined.

(** X14. When the body of a response with no error status cannot be read
    by [response.json()], the exception decides the report: a requests
    exception gives the connection failure mapping although the request
    went through, any other one the generic failure mapping. *)
Theorem undecodable_body_reported (w : World) (api_key : option string)
    (title text : string) (log : list LogRecord) (response : Response)
    (e : exception) :
  requests_post w GroqAnalyzer.api_url (GroqAnalyzer.headers api_key)
    (GroqAnalyzer.request_json (GroqAnalyzer.prompt title text))
    = Return response →
  raise_for_status response = Return () →
  response_json w response = Raise e →
  outcome (GroqAnalyzer.analyze_text w api_key title text) log
    = Return (JObj {[ "error" :=
                        JStr (if isinstance e RequestException
                              then "Failed to connect to GROQ API"
                              else "Failed to analyze text");
                      "details" := JStr (str e) ]}).
Proof.
  intros Hpost Hstatus Hjson.
  rewrite analyze_text_outcome. unfold outcome.
  rewrite analyze_text_try_payload. unfold payload_of.
  rewrite Hpost, Hstatus, Hjson. cbn [fst].
  by destruct (isinstance e RequestException).
Qed.

(** The body is no JSON and requests raises its JSONDecodeError. *)
Lemma undecodable_body_reported_witness :
  outcome (GroqAnalyzer.analyze_text
             (Cases.completion_world (Raise Cases.not_json))
             (Some "key") "Title" "a b c d") []
  = Return (JObj {[ "error" := JStr "Failed to connect to GROQ API";
                    "details" :=
                      JStr "Expecting value: line 1 column 1 (char 0)" ]}).
Proof.
  refine (undecodable_body_reported
            (Cases.completion_world (Raise Cases.not_json))
            (Some "key") "Title" "a b c d" []
            (Samples.ok_response "{}") Cases.not_json _ _ _); reflexivity.
Defined.

(** X15. A payload that does not decode is logged twice: once by the inner
    handler, as a failure to parse, and once by the outer handler, as an
    error in the analysis; the records already in the log are kept. *)
Theorem invalid_json_logged_twice (w : World) (api_key : option string)
    (title text s : string) (e : exception) (log : list LogRecord) :
  replies w api_key title text (JStr s) →
  json_loads w s = Raise e →
  isinstance e JSONDecodeError = true →
  (GroqAnalyzer.analyze_text w api_key title text log).2
  = (log ++ [mkLog ERROR
               ("Failed to parse GROQ response as JSON: " +:+ str e);
             mkLog ERROR
               ("Error in GROQ analysis: Invalid JSON response from GROQ: "
                +:+ str e)])%list.
Proof.
  intros Hreplies Hloads Hclass.
  unfold GroqAnalyzer.analyze_text, try_except.
  rewrite (analyze_text_try_replies _ _ _ _ _ _ Hreplies).
  unfold GroqAnalyzer.parse_analysis, try_except, mbind, M_bind, call,
    json_loads_obj, raise, logging_error.
  rewrite Hloads. cbn [find_handler]. rewrite Hclass.
  assert (∀ msg, isinstance (mkExc ValueError msg) RequestException = false)
    as Hvalue by reflexivity.
  rewrite Hvalue, isinstance_Exception.
  unfold mret, M_ret. cbn [snd str]. by rewrite <- app_assoc.
Qed.

(** The decoder fails at the first character of the payload. *)
Lemma invalid_json_logged_twice_witness :
  (GroqAnalyzer.analyze_text
     (Samples.answering_world Samples.post_page
        (Raise (mkExc JSONDecodeError "Expecting value")))
     None "Title" "a b c d" []).2
  = [mkLog ERROR "Failed to parse GROQ response as JSON: Expecting value";
     mkLog ERROR
       "Error in GROQ analysis: Invalid JSON response from GROQ: Expecting value"].
Proof.
  refine (invalid_json_logged_twice
            (Samples.answering_world Samples.post_page
               (Raise (mkExc JSONDecodeError "Expecting value")))
            None "Title" "a b c d" "{}"
            (mkExc JSONDecodeError "Expecting value") [] _ _ _); evaluate.
Defined.

(** *** The view, whatever the world *)

Lemma contains_error_singleton (v : json) :
  Py.contains "error" (JObj {[ "error" := v ]}) = Return true.
Proof.
  cbn [Py.contains]. by rewrite (lookup_singleton_eq (M:=gmap string)).
Qed.





(** X18. The view always answers: whatever the form and the world, it
    returns a body with status 200, 400 or 500, and the status is 200
    exactly when the test for an error member in the body is false. *)
Theorem analyze_always_responds (w : World) (GROQ_API_KEY : option string)
    (form : list (string * string)) (log : list LogRecord) :
  ∃ body status,
    outcome (analyze w GROQ_API_KEY form) log = Return (body, status)
    ∧ (status = 200 ∨ status = 400 ∨ status = 500)%Z
    ∧ Py.contains "error" body = Return (negb (status =? 200)%Z).
Proof.
  rewrite analyze_outcome. unfold outcome, analyze_try, jsonify.
  assert (∀ v (status : Z),
            (status = 400 ∨ status = 500)%Z →
            ∃ body status',
              (Return (JObj {[ "error" := v ]}, status) : Result (json * Z))
                = Return (body, status')
              ∧ (status' = 200 ∨ status' = 400 ∨ status' = 500)%Z
              ∧ Py.contains "error" body = Return (negb (status' =? 200)%Z))
    as Herror.
  { intros v status Hstatus. exists (JObj {[ "error" := v ]}), status.
    split; [done|]. split; [lia|]. rewrite contains_error_singleton.
    by destruct Hstatus as [-> | ->]. }
  destruct (form_get form "url") as [[|c url]|]; cbn [fst];
    [by apply Herror; left| |by apply Herror; left].
  destruct (Str.startswith (String c url) ["http://"; "https://"]);
    cbn [negb fst]; [|by apply Herror; left].
  unfold mbind, M_bind.
  destruct (WebScraper.extract_article w (String c url) log)
    as [[[title text]|e] log']; cbn [fst]; [|by apply Herror; right].
  destruct (String.eqb text ""); cbn [fst]; [by apply Herror; left|].
  destruct (GroqAnalyzer.analyze_text w GROQ_API_KEY title text log')
    as [[analysis|e] log'']; cbn [fst]; [|by apply Herror; right].
  unfold call.
  destruct (Py.contains "error" analysis) as [[]|e] eqn:Hcontains; cbn [fst].
  - exists analysis, 500%Z. split; [done|]. split; [lia|done].
  - exists analysis, 200%Z. split; [done|]. split; [lia|done].
  - by apply Herror; right.
Qed.

(** X19. A body answered with status 200 went through both tests: the six
    expected keys are found in it and the key error is not. *)
Theorem ok_body_is_validated (w : World) (GROQ_API_KEY : option string)
    (form : list (string * string)) (log : list LogRecord) (body : json) :
  outcome (analyze w GROQ_API_KEY form) log = Return (body, 200%Z) →
  Py.all_in GroqAnalyzer.expected_keys body = Return true
  ∧ Py.contains "error" body = Return false.
Proof.
  rewrite analyze_outcome. unfold outcome, analyze_try, jsonify.
  destruct (form_get form "url") as [[|c url]|]; cbn [fst]; [done| |done].
  destruct (Str.startswith (String c url) ["http://"; "https://"]);
    cbn [negb fst]; [|done].
  unfold mbind, M_bind.
  destruct (WebScraper.extract_article w (String c url) log)
    as [[[title text]|e] log']; cbn [fst]; [|done].
  destruct (String.eqb text ""); cbn [fst]; [done|].
  pose proof (analyze_text_cases w GROQ_API_KEY title text log')
    as (v & Hv & Hcases).
  unfold outcome in Hv.
  destruct (GroqAnalyzer.analyze_text w GROQ_API_KEY title text log')
    as [[analysis|e] log'']; cbn [fst] in *; [|done].
  injection Hv as ->. unfold call.
  destruct (Py.contains "error" v) as [[]|e] eqn:Hcontains; cbn [fst];
    [done| |done].
  intros [= <-]. split; [|done].
  destruct Hcases as [[d ->]|[[d ->]|Hkeys]]; [| |done].
  - unfold GroqAnalyzer.connect_failure in Hcontains.
    cbn [Py.contains] in Hcontains.
    by rewrite (lookup_insert_eq (M:=gmap string)) in Hcontains.
  - unfold GroqAnalyzer.analyze_failure in Hcontains.
    cbn [Py.contains] in Hcontains.
    by rewrite (lookup_insert_eq (M:=gmap string)) in Hcontains.
Qed.

(** The sample page and a complete analysis. *)
Lemma ok_body_is_validated_witness :
  Py.all_in GroqAnalyzer.expected_keys (JObj Samples.full_analysis)
    = Return true
  ∧ Py.contains "error" (JObj Samples.full_analysis) = Return false.
Proof.
  apply (ok_body_is_validated
           (Samples.answering_world Samples.post_page
              (Return (JObj Samples.full_analysis)))
           (Some "key") Samples.form []).
  vm_compute. reflexivity.
Defined.

(** X20. Past the checks on the URL and with a non-empty body, the view
    passes on whatever mapping [analyze_text] returns: with status 500 when
    the mapping has a key error, as both failure mappings do, and with
    status 200 otherwise. *)
Theorem view_status_follows_error_key (w : World)
    (GROQ_API_KEY : option string) (form : list (string * string))
    (url title text : string) (fields : gmap string json)
    (log : list LogRecord) :
  posts_url form url →
  outcome (WebScraper.extract_article w url) log = Return (title, text) →
  text ≠ "" →
  outcome (GroqAnalyzer.analyze_text w GROQ_API_KEY title text) []
    = Return (JObj fields) →
  outcome (analyze w GROQ_API_KEY form) log
    = Return (JObj fields,
              if bool_decide (is_Some (fields !! "error")) then 500%Z
              else 200%Z).
Proof.
  intros Hform [log' Hextract]%outcome_Return Htext%String.eqb_neq Hanalysis.
  rewrite (analyze_text_outcome_log _ _ _ _ [] log') in Hanalysis.
  apply outcome_Return in Hanalysis as [log'' Hanalysis].
  rewrite analyze_outcome. unfold outcome.
  rewrite (analyze_try_posts_url _ _ _ _ _ Hform), Hextract, Htext, Hanalysis.
  cbn [Py.contains]. by destruct (bool_decide (is_Some (fields !! "error"))).
Qed.

(** The model endpoint answers 503: the view answers 500 with the
    connection failure mapping. *)
Lemma view_status_follows_error_key_witness :
  outcome (analyze (Samples.failing_world
                      (Return (mkResponse 503 "Service Unavailable"
                                 "https://api.groq.com/openai/v1/chat/completions"
                                 "")))
                   (Some "key") Samples.form) []
  = Return (JObj {[ "error" := JStr "Failed to connect to GROQ API";
                    "details" := JStr "503 Server Error: Service Unavailable for url: https://api.groq.com/openai/v1/chat/completions" ]},
            500%Z).
Proof.
  refine (view_status_follows_error_key
            (Samples.failing_world
               (Return (mkResponse 503 "Service Unavailable"
                          "https://api.groq.com/openai/v1/chat/completions"
                          "")))
            (Some "key") Samples.form "https://example.org/post"
            "Title" "a b c d"
            {[ "error" := JStr "Failed to connect to GROQ API";
               "details" := JStr "503 Server Error: Service Unavailable for url: https://api.groq.com/openai/v1/chat/completions" ]}
            [] _ _ _ _).
  - evaluate.
  - evaluate.
  - discriminate.
  - evaluate.
Defined.

(** X21. The prompt carries the title and the text of the article as they
    are: both occur in it, whatever they hold. *)
Theorem prompt_embeds_title_and_text (title text : string) :
  Str.contains title (GroqAnalyzer.prompt title text) = true
  ∧ Str.contains text (GroqAnalyzer.prompt title text) = true.
Proof.
  unfold GroqAnalyzer.prompt. split.
  - do 2 apply contains_app_r. apply contains_here.
  - do 7 apply contains_app_r. apply contains_here.
Qed.
